(** * The Conda step decorators of metaflow_extensions.netflix_ext

    A shallow embedding of
    [metaflow_extensions/netflix_ext/plugins/conda/conda_step_decorator.py]:
    the [PackageRequirementStepDecorator] guard and the lifecycle hooks of
    [CondaEnvInternalDecorator], with the process environment, the file
    system, the logger, the metadata provider and the [Conda] object as an
    explicit world that every hook threads through. *)

From Stdlib Require Import String Ascii List Bool ZArith Lia.
From stdpp Require Import base option list strings gmap fin_maps pretty.

Local Open Scope string_scope.

(** ** Python strings and [posixpath] *)

Module Py.

Definition sep : ascii := "/"%char.
Definition pathsep : string := ":".

Definition is_sep (c : ascii) : bool := Ascii.eqb c sep.

(** [s.startswith(p)] *)
Definition startswith (p s : string) : bool := String.prefix p s.

(** [s.endswith("/")] *)
Fixpoint endswith_sep (s : string) : bool :=
  match s with
  | EmptyString => false
  | String c EmptyString => is_sep c
  | String _ r => endswith_sep r
  end.

(** [bool(s)] for a string *)
Definition truthy (s : string) : bool :=
  match s with EmptyString => false | _ => true end.

(** [sep.join(l)] *)
Definition join (s : string) (l : list string) : string := String.concat s l.

(** One round of the loop of [posixpath.join]. *)
Definition path_join2 (path b : string) : string :=
  if startswith "/" b then b
  else if negb (truthy path) || endswith_sep path then path ++ b
  else path ++ "/" ++ b.

(** [os.path.join(a, *p)] *)
Definition path_join (a : string) (p : list string) : string :=
  fold_left path_join2 p a.

(** [p[:p.rfind("/") + 1]] *)
Fixpoint cut_after_last_sep (p : string) : string :=
  match p with
  | EmptyString => EmptyString
  | String c r =>
      match cut_after_last_sep r with
      | EmptyString => if is_sep c then String c EmptyString else EmptyString
      | h => String c h
      end
  end.

(** [s.rstrip("/")] *)
Fixpoint rstrip_sep (s : string) : string :=
  match s with
  | EmptyString => EmptyString
  | String c r =>
      match rstrip_sep r with
      | EmptyString => if is_sep c then EmptyString else String c EmptyString
      | r' => String c r'
      end
  end.

(** [s == "/" * len(s)] *)
Fixpoint all_sep (s : string) : bool :=
  match s with
  | EmptyString => true
  | String c r => is_sep c && all_sep r
  end.

(** [os.path.dirname(p)] *)
Definition dirname (p : string) : string :=
  let head := cut_after_last_sep p in
  if truthy head && negb (all_sep head) then rstrip_sep head else head.

(** [s.split("/")] *)
Fixpoint split_sep (s : string) : list string :=
  match s with
  | EmptyString => [EmptyString]
  | String c r =>
      if is_sep c then EmptyString :: split_sep r
      else match split_sep r with
           | x :: xs => String c x :: xs
           | [] => [String c EmptyString]
           end
  end.

(** ["/" in s] *)
Fixpoint has_sep (s : string) : bool :=
  match s with
  | EmptyString => false
  | String c r => is_sep c || has_sep r
  end.

(** [c.upper()] for an ASCII character [c]. *)
Definition upper_ascii (c : ascii) : ascii :=
  let n := nat_of_ascii c in
  if (97 <=? n)%nat && (n <=? 122)%nat then ascii_of_nat (n - 32) else c.

Fixpoint map_chars (f : ascii -> ascii) (s : string) : string :=
  match s with
  | EmptyString => EmptyString
  | String c r => String (f c) (map_chars f r)
  end.

(** [s.upper()] for a string [s] of ASCII characters only. On other
    strings [str.upper] follows the case mappings of Unicode, which may
    change the bytes of a character and their number; the hooks take it
    from the host (see [str_upper] below). *)
Definition ascii_upper (s : string) : string := map_chars upper_ascii s.

(** [s.replace("-", "_")] *)
Definition dash_to_underscore (s : string) : string :=
  map_chars (fun c => if Ascii.eqb c "-"%char then "_"%char else c) s.

(** ["{0}".format(n)] for an [int] *)
Definition str_of_int (n : Z) : string := pretty n.

End Py.

(** ** Exceptions and the state-and-exception monad

    A hook either returns or raises; what it did to the objects it was
    handed before raising stays done, so the state comes back with both
    outcomes. *)

Inductive exn : Type :=
| InvalidEnvironmentException (msg : string)
| AssertionError
| AttributeError (attr : string)
| KeyError (key : string)
| IndexError
| ValueError
| FileExistsError (path : string)
| FileNotFoundError (path : string)
| NotADirectoryError (path : string)
| IsADirectoryError (path : string)
| OSError (msg : string).

Inductive Res (A : Type) : Type :=
| Ok (a : A)
| Raise (e : exn).
Arguments Ok {A} a.
Arguments Raise {A} e.

Definition M (S A : Type) : Type := S -> Res A * S.

Definition ret {S A} (a : A) : M S A := fun s => (Ok a, s).
Definition raise {S A} (e : exn) : M S A := fun s => (Raise e, s).
Definition bind {S A B} (m : M S A) (k : A -> M S B) : M S B :=
  fun s => match m s with
           | (Ok a, s') => k a s'
           | (Raise e, s') => (Raise e, s')
           end.
Definition get {S} : M S S := fun s => (Ok s, s).
Definition modify {S} (f : S -> S) : M S unit := fun s => (Ok tt, f s).

Notation "x <- c ;; k" := (bind c (fun x => k))
  (at level 100, c at next level, right associativity).
Notation "c ;;; k" := (bind c (fun _ => k))
  (at level 100, right associativity).

(** Run a computation on the second component of a pair state. *)
Definition on_snd {X S A} (m : M S A) : M (X * S) A :=
  fun xs => let '(r, s') := m (snd xs) in (r, (fst xs, s')).
(** Run a computation on the first component of a pair state. *)
Definition on_fst {X S A} (m : M X A) : M (X * S) A :=
  fun xs => let '(r, x') := m (fst xs) in (r, (x', snd xs)).

(** [for x in l: body(x)] *)
Fixpoint for_each {S A} (l : list A) (body : A -> M S unit) : M S unit :=
  match l with
  | [] => ret tt
  | x :: r => body x ;;; for_each r body
  end.

(** ** Data of the host framework *)

(** [EnvID] is the named tuple [(req_id, full_id, arch)]. *)
Record EnvID := mkEnvID { req_id : string; full_id : string; arch : string }.

(** A resolved environment, as [Conda.environment] hands it out. *)
Record ResolvedEnvironment := mkResolved { resolved_env_id : EnvID }.

(** A task datastore is identified by the run, step and task it was
    opened for. *)
Record TaskDataStore :=
  mkTaskDataStore { ds_run_id : string; ds_step_name : string; ds_task_id : string }.

(** Values of [self._env_for_fetch]: a string, or the deferred load of
    flow parameter [var] from a datastore (the [lambda] of
    [runtime_task_created], with its three captured defaults). *)
Inductive FetchVal : Type :=
| FetchStr (s : string)
| FetchParam (var : string) (ds : TaskDataStore).

Inductive CondaCall : Type :=
| CallCreatedEnvironment (env_id : EnvID)
| CallEnvironment (env_id : EnvID)
| CallCreateForStep (step_name : string) (env : ResolvedEnvironment).

(** The [Conda] object. What it answers may depend on what was asked of
    it before, so every method sees the calls made so far. *)
Record Conda := {
  created_environment : list CondaCall -> EnvID -> option (EnvID * string);
  environment : list CondaCall -> EnvID -> option ResolvedEnvironment;
  create_for_step : list CondaCall -> string -> ResolvedEnvironment -> string
}.

(** The environment object handed to [step_init]. *)
Record CondaEnvironment := {
  TYPE : string;
  get_env_id_noconda : string -> string + EnvID;
  resolve_fetch_at_exec_env : string -> gmap string FetchVal -> option EnvID;
  (** [json.dumps(get_environment_info(include_ext_info=True))] *)
  get_environment_info_json : string;
  conda : Conda
}.

(** [flow._get_parameters()] yields the names of the parameters. *)
Record FlowSpec := { _get_parameters : list string }.

Record FlowDataStore := { flow_name : string }.

Definition get_task_datastore (fds : FlowDataStore)
    (run_id step_name task_id : string) : TaskDataStore :=
  mkTaskDataStore run_id step_name task_id.

Record MetaDatum := mkMetaDatum {
  md_field : string; md_value : string; md_type : string; md_tags : list string
}.

(** [cli_args]: the command of the child process and its environment. *)
Record CLIArgs := mkCLIArgs {
  entrypoint : list string;
  env : gmap string string
}.

(** Module-level names the file imports from the host. *)
Record Host := {
  CONDA_REMOTE_COMMANDS : list string;
  get_metaflow_root : string;
  (** [CondaEnvironment.enabled_for_step] *)
  enabled_for_step : string -> bool;
  (** [importlib.import_module(EXT_PKG).__path__]; [None]: [ImportError] *)
  ext_pkg_path : option (list string);
  (** [list(set(l))]: the order of a set is the interpreter's *)
  list_of_set : list string -> list string;
  (** module names and contents of the files [generate_trampolines] writes *)
  trampolines : list (string * string);
  arch_id : string;
  (** [os.path.realpath(sys.executable)] *)
  realpath_sys_executable : string;
  (** [json.dumps] of [self._env_id] *)
  json_dumps : option EnvID -> string;
  (** [str.upper]: the upper-casing of the interpreter, with the case
      mappings of its Unicode tables *)
  str_upper : string -> string;
  (** [os.getcwd()], the directory relative paths start from; no hook
      changes it *)
  getcwd : string
}.

(** [metaflow.unbounded_foreach] and [metaflow.extension_support] *)
Definition UBF_CONTROL : string := "ubf_control".
Definition UBF_TASK : string := "ubf_task".
Definition EXT_PKG : string := "metaflow_extensions".

(** ** The world outside the decorator *)

Inductive Node : Type :=
| Dir
| Symlink (target : string)
| File (content : string).

Record World := mkWorld {
  os_environ : gmap string string;
  (** the file system, keyed by normalised absolute path *)
  fs : gmap string Node;
  (** the names [tempfile] will draw, in order; running out of them is
      running into [TMP_MAX] *)
  candidate_names : list string;
  (** what was sent to the logger, latest first *)
  echoed : list string;
  (** the calls made on the [Conda] object, latest first *)
  conda_calls : list CondaCall;
  (** the calls of [metadata.register_metadata], latest first *)
  registered : list (string * string * string * list MetaDatum)
}.

Definition set_os_environ (f : gmap string string -> gmap string string)
    (w : World) : World :=
  mkWorld (f (os_environ w)) (fs w) (candidate_names w) (echoed w)
          (conda_calls w) (registered w).
Definition set_fs (f : gmap string Node -> gmap string Node) (w : World) : World :=
  mkWorld (os_environ w) (f (fs w)) (candidate_names w) (echoed w)
          (conda_calls w) (registered w).
Definition set_candidate_names (l : list string) (w : World) : World :=
  mkWorld (os_environ w) (fs w) l (echoed w) (conda_calls w) (registered w).
Definition add_echo (msg : string) (w : World) : World :=
  mkWorld (os_environ w) (fs w) (candidate_names w) (msg :: echoed w)
          (conda_calls w) (registered w).
Definition add_conda_call (c : CondaCall) (w : World) : World :=
  mkWorld (os_environ w) (fs w) (candidate_names w) (echoed w)
          (c :: conda_calls w) (registered w).
Definition add_registered (r : string * string * string * list MetaDatum)
    (w : World) : World :=
  mkWorld (os_environ w) (fs w) (candidate_names w) (echoed w)
          (conda_calls w) (r :: registered w).

(** ** [os], [tempfile] and [shutil] on the world *)

Module OS.

Definition environ_get (k : string) : M World (option string) :=
  fun w => (Ok (os_environ w !! k), w).

(** [os.environ[k]] *)
Definition environ_item (k : string) : M World string :=
  fun w => match os_environ w !! k with
           | Some v => (Ok v, w)
           | None => (Raise (KeyError k), w)
           end.

Definition environ_set (k v : string) : M World unit :=
  modify (set_os_environ (insert k v)).

(** The error of creating an entry whose parent is not a directory. *)
Definition parent_error (f : gmap string Node) (p : string) : option exn :=
  match f !! Py.dirname p with
  | Some Dir => None
  | Some _ => Some (NotADirectoryError p)
  | None => Some (FileNotFoundError p)
  end.

Definition create (p : string) (n : Node) : M World unit :=
  fun w => match fs w !! p with
           | Some _ => (Raise (FileExistsError p), w)
           | None => match parent_error (fs w) p with
                     | Some e => (Raise e, w)
                     | None => (Ok tt, set_fs (insert p n) w)
                     end
           end.

(** [os.mkdir(p)] *)
Definition mkdir (p : string) : M World unit := create p Dir.

(** [os.symlink(src, dst)] *)
Definition symlink (src dst : string) : M World unit := create dst (Symlink src).

(** Where the path [p] of an entry leads once the links that the entry
    and its targets are have been followed. *)
Fixpoint follow (fuel : nat) (f : gmap string Node) (p : string) : option string :=
  match f !! p with
  | Some (Symlink t) =>
      match fuel with
      | O => None
      | S n => follow n f (if Py.startswith "/" t then t
                           else Py.path_join (Py.dirname p) [t])
      end
  | _ => Some p
  end.

Definition MAXSYMLINKS : nat := 40.

(** The entry [c] of the directory with key [cur]. *)
Definition enter (cur c : string) : string :=
  if String.eqb cur "/" then "/" ++ c else cur ++ "/" ++ c.

(** Path resolution as [stat] does it: from the directory with key [cur]
    through the components [comps], one after the other. An empty
    component and [.] stay where they are, [..] goes to the parent, a
    directory is entered, and a symbolic link is replaced by the components
    of its target, which start from the top when the target is absolute and
    from the directory of the link otherwise; [links] is how many links
    may still be followed. Anything else, or nothing, is where the path
    ends when it is the last component, with the key returned for the
    caller to look up. [None] is one of [ENOENT], [ENOTDIR] and [ELOOP]. *)
Fixpoint resolve (links : nat) (f : gmap string Node) {struct links}
    : string -> list string -> option string :=
  fix go (cur : string) (comps : list string) {struct comps} : option string :=
    match comps with
    | [] => Some cur
    | c :: rest =>
        if bool_decide (c = EmptyString) || String.eqb c "." then go cur rest
        else if String.eqb c ".." then go (Py.dirname cur) rest
        else
          let p := enter cur c in
          match f !! p with
          | Some Dir => go p rest
          | Some (Symlink t) =>
              match links with
              | O => None
              | S n => resolve n f (if Py.startswith "/" t then "/" else cur)
                               (Py.split_sep t ++ rest)%list
              end
          | _ => match rest with [] => Some p | _ => None end
          end
    end.

(** [stat.S_ISREG(os.stat(p).st_mode)], [False] when [os.stat] raises; the
    process is in the directory [cwd]. *)
Definition isfile (cwd : string) (f : gmap string Node) (p : string) : bool :=
  match p with
  | EmptyString => false
  | _ =>
      match resolve MAXSYMLINKS f (if Py.startswith "/" p then "/" else cwd)
                    (Py.split_sep p) with
      | Some q => match f !! q with
                  | Some (File _) => true
                  | _ => false
                  end
      | None => false
      end
  end.

(** [os.path.isfile(p)] *)
Definition path_isfile (cwd p : string) : M World bool :=
  fun w => (Ok (isfile cwd (fs w) p), w).

(** [with open(p, mode="wt") as f: f.write(content)] *)
Definition write_text (p content : string) : M World unit :=
  fun w => match follow MAXSYMLINKS (fs w) p with
           | None => (Raise (OSError "Too many levels of symbolic links"), w)
           | Some q =>
               match fs w !! q with
               | Some Dir => (Raise (IsADirectoryError q), w)
               | Some _ => (Ok tt, set_fs (insert q (File content)) w)
               | None => match parent_error (fs w) q with
                         | Some e => (Raise e, w)
                         | None => (Ok tt, set_fs (insert q (File content)) w)
                         end
               end
           end.

(** The loop of [tempfile.mkdtemp(dir=dir)]: the next candidate name is
    tried until [os.mkdir] does not find the directory there already. *)
Fixpoint mkdtemp_from (dir : string) (names : list string) (w : World)
    : Res string * World :=
  match names with
  | [] => (Raise (FileExistsError dir), set_candidate_names [] w)
  | n :: rest =>
      let file := Py.path_join dir ["tmp" ++ n] in
      match mkdir file (set_candidate_names rest w) with
      | (Ok _, w') => (Ok file, w')
      | (Raise (FileExistsError _), w') => mkdtemp_from dir rest w'
      | (Raise e, w') => (Raise e, w')
      end
  end.

Definition mkdtemp (dir : string) : M World string :=
  fun w => mkdtemp_from dir (candidate_names w) w.

(** [k] is [root] or lies below it: [root] is met going up from [k]. *)
Fixpoint is_under (fuel : nat) (root k : string) : bool :=
  String.eqb k root ||
  match fuel with
  | O => false
  | S n => let d := Py.dirname k in
           if String.eqb d k then false else is_under n root d
  end.

Definition under (root k : string) : bool := is_under (String.length k) root k.

(** [shutil.rmtree(p)] *)
Definition rmtree (p : string) : M World unit :=
  fun w => match fs w !! p with
           | Some Dir =>
               (Ok tt, set_fs (filter (fun kv => under p (fst kv) = false)) w)
           | Some (Symlink _) =>
               (Raise (OSError "Cannot call rmtree on a symbolic link"), w)
           | Some (File _) => (Raise (NotADirectoryError p), w)
           | None => (Raise (FileNotFoundError p), w)
           end.

End OS.

(** ** [PackageRequirementStepDecorator] and its subclasses *)

(** What a class statement of a step decorator contributes: its [name]
    attribute and its [step_init], when it defines them. A [step_init]
    receives [self.name], already looked up on the object, and the
    arguments of the hook it reads. *)
Record ClassBody := {
  attr_name : option string;
  def_step_init : option (string -> CondaEnvironment -> M World unit)
}.

(** Attribute lookup along a method resolution order. *)
Fixpoint mro_lookup {A} (sel : ClassBody -> option A) (mro : list ClassBody)
    : option A :=
  match mro with
  | [] => None
  | c :: r => match sel c with Some a => Some a | None => mro_lookup sel r end
  end.

Module PackageRequirementStepDecorator.

Definition name : string := "step_package_req".

Definition step_init (self_name : string) (environment : CondaEnvironment)
    : M World unit :=
  if negb (String.eqb (TYPE environment) "conda") then
    raise (InvalidEnvironmentException
             ("The *@" ++ self_name ++ "* decorator requires --environment=conda"))
  else ret tt.

Definition body : ClassBody :=
  {| attr_name := Some name; def_step_init := Some step_init |}.

End PackageRequirementStepDecorator.

(** [StepDecorator.step_init] of the host does nothing. *)
Definition StepDecorator_body : ClassBody :=
  {| attr_name := Some "NONAME"; def_step_init := Some (fun _ _ => ret tt) |}.

(** [class CondaRequirementStepDecorator(CondaRequirementDecoratorMixin,
    PackageRequirementStepDecorator)]: the class sets [name] and nothing
    else; the classes the mixin brings in come between it and
    [PackageRequirementStepDecorator] in the resolution order. *)
Definition CondaRequirementStepDecorator_mro (mixin : list ClassBody)
    : list ClassBody :=
  {| attr_name := Some "conda"; def_step_init := None |}
    :: mixin ++ [PackageRequirementStepDecorator.body; StepDecorator_body].

(** [class PypiRequirementStepDecorator(PypiRequirementDecoratorMixin,
    PackageRequirementStepDecorator)] *)
Definition PypiRequirementStepDecorator_mro (mixin : list ClassBody)
    : list ClassBody :=
  {| attr_name := Some "pypi"; def_step_init := None |}
    :: mixin ++ [PackageRequirementStepDecorator.body; StepDecorator_body].

Definition PackageRequirementStepDecorator_mro : list ClassBody :=
  [PackageRequirementStepDecorator.body; StepDecorator_body].

(** [obj.step_init(flow, graph, step_name, decorators, environment, ...)]
    on an object whose class has resolution order [mro]. *)
Definition call_step_init (mro : list ClassBody) (environment : CondaEnvironment)
    : M World unit :=
  match mro_lookup def_step_init mro, mro_lookup attr_name mro with
  | Some f, Some n => f n environment
  | _, _ => raise (AttributeError "step_init")
  end.

(** ** [CondaEnvInternalDecorator] *)

Record Self := mkSelf {
  _env : CondaEnvironment;
  _flow : FlowSpec;
  _step_name : string;
  _flow_datastore : FlowDataStore;
  _env_for_fetch : gmap string FetchVal;
  _env_id : option EnvID;
  _is_remote : bool;
  (** set by [runtime_init]; [None] before that *)
  _metaflow_home : option string;
  _addl_paths : option (list string)
}.

Definition set_env_for_fetch (f : gmap string FetchVal -> gmap string FetchVal)
    (s : Self) : Self :=
  mkSelf (_env s) (_flow s) (_step_name s) (_flow_datastore s)
         (f (_env_for_fetch s)) (_env_id s) (_is_remote s) (_metaflow_home s)
         (_addl_paths s).
Definition set_env_id (e : option EnvID) (s : Self) : Self :=
  mkSelf (_env s) (_flow s) (_step_name s) (_flow_datastore s)
         (_env_for_fetch s) e (_is_remote s) (_metaflow_home s) (_addl_paths s).
Definition set_metaflow_home (h : string) (s : Self) : Self :=
  mkSelf (_env s) (_flow s) (_step_name s) (_flow_datastore s)
         (_env_for_fetch s) (_env_id s) (_is_remote s) (Some h) (_addl_paths s).
Definition set_addl_paths (l : option (list string)) (s : Self) : Self :=
  mkSelf (_env s) (_flow s) (_step_name s) (_flow_datastore s)
         (_env_for_fetch s) (_env_id s) (_is_remote s) (_metaflow_home s) l.

(** The two methods the hooks call on [self]; a subclass may replace
    them. *)
Record Methods := {
  call_is_enabled : Self -> option string -> bool;
  call_is_fetch_at_exec : Self -> option string -> bool
}.

Definition set_cli_env (k v : string) (c : CLIArgs) : CLIArgs :=
  mkCLIArgs (entrypoint c) (<[k := v]> (env c)).

(** [cli_args.entrypoint[0] = e] *)
Definition set_entrypoint0 (e : string) : M CLIArgs unit :=
  fun c => match entrypoint c with
           | [] => (Raise IndexError, c)
           | _ :: r => (Ok tt, mkCLIArgs (e :: r) (env c))
           end.

Section CondaEnvInternalDecorator.

Variable host : Host.

Definition name : string := "conda_env_internal".

Definition _is_enabled (self : Self) (ubf_context : option string) : bool :=
  if bool_decide (ubf_context = Some UBF_CONTROL) then false
  else enabled_for_step host (_step_name self).

Definition _is_fetch_at_exec (self : Self) (ubf_context : option string) : bool :=
  false.

(** The class as this file defines it. *)
Definition CondaEnvInternalDecorator : Methods :=
  {| call_is_enabled := _is_enabled;
     call_is_fetch_at_exec := _is_fetch_at_exec |}.

Variable cls : Methods.

Definition step_init (flow : FlowSpec) (step_name : string)
    (decorators : list string) (environment : CondaEnvironment)
    (flow_datastore : FlowDataStore) : M (Self * World) unit :=
  on_fst (modify (fun self =>
    mkSelf environment flow step_name flow_datastore ∅ None
           (existsb (fun d => existsb (String.eqb d) (CONDA_REMOTE_COMMANDS host))
                    decorators)
           (_metaflow_home self) (_addl_paths self))) ;;;
  on_snd (OS.environ_set "PYTHONNOUSERSITE" "1").

(** [generate_trampolines(out_dir)] writes one file per module. *)
Definition generate_trampolines (out_dir : string) : M World unit :=
  for_each (trampolines host) (fun mc =>
    modify (set_fs (insert (Py.path_join out_dir [fst mc ++ ".py"])
                           (File (snd mc))))).

(** [runtime_init], first part: the symlink to the installed metaflow and
  the [INFO] file next to it. *)
Definition link_metaflow (home : string) : M (Self * World) unit :=
let path_to_metaflow := Py.path_join (get_metaflow_root host) ["metaflow"] in
let path_to_info := Py.path_join (get_metaflow_root host) ["INFO"] in
on_snd (OS.symlink path_to_metaflow (Py.path_join home ["metaflow"])) ;;;
has_info <- on_snd (OS.path_isfile (getcwd host) path_to_info) ;;
if has_info : bool then
  on_snd (OS.symlink path_to_info (Py.path_join home ["INFO"]))
else
  self <- on_fst get ;;
  on_snd (OS.write_text (Py.path_join home ["INFO"])
                        (get_environment_info_json (_env self))).

(** [runtime_init], second part: "Do the same for EXT_PKG". *)
Definition link_extensions (home : string) : M (Self * World) unit :=
match ext_pkg_path host with
| None => ret tt
| Some m_path =>
    let custom_paths := list_of_set host m_path in
    match custom_paths with
    | [p] => on_snd (OS.symlink p (Py.path_join home [EXT_PKG]))
    | _ =>
        on_fst (modify (set_addl_paths (Some []))) ;;;
        for_each custom_paths (fun p =>
          temp_dir <- on_snd (OS.mkdtemp home) ;;
          on_snd (OS.symlink p (Py.path_join temp_dir [EXT_PKG])) ;;;
          on_fst (modify (fun self =>
            set_addl_paths
              (option_map (fun l => (l ++ [temp_dir])%list) (_addl_paths self))
              self)))
    end
end.

(** [runtime_init], last part: what a fetch-at-exec step keeps for later. *)
Definition save_for_fetch (run_id : string) : M (Self * World) unit :=
self <- on_fst get ;;
if call_is_enabled cls self None && call_is_fetch_at_exec cls self None then
  on_fst (modify (set_env_for_fetch (fun e =>
    <["METAFLOW_STEP_NAME" := FetchStr (_step_name self)]>
      (<["METAFLOW_RUN_ID_BASE" := FetchStr run_id]>
         (<["METAFLOW_RUN_ID" := FetchStr run_id]> e)))))
else ret tt.

Definition runtime_init (run_id : string) : M (Self * World) unit :=
home <- on_snd (OS.mkdtemp "/tmp") ;;
on_fst (modify (set_metaflow_home home)) ;;;
on_fst (modify (set_addl_paths None)) ;;;
link_metaflow home ;;;
link_extensions home ;;;
on_snd (generate_trampolines home) ;;;
save_for_fetch run_id.

(** ["METAFLOW_INIT_%s" % var.upper().replace("-", "_")] *)
Definition init_key (var : string) : string :=
  "METAFLOW_INIT_" ++ Py.dash_to_underscore (str_upper host var).

Definition runtime_task_created (task_id : string) (split_index : Z)
    (input_paths : list string) (is_cloned : bool)
    (ubf_context : option string) : M Self unit :=
  self <- get ;;
  if call_is_enabled cls self ubf_context then
    if call_is_fetch_at_exec cls self ubf_context then
      match input_paths with
      | [] => raise IndexError
      | path0 :: _ =>
          match Py.split_sep path0 with
          | [run_id; step_name; task_id] =>
              let parent_ds :=
                get_task_datastore (_flow_datastore self) run_id step_name task_id in
              for_each (_get_parameters (_flow self)) (fun var =>
                modify (set_env_for_fetch
                          (insert (init_key var) (FetchParam var parent_ds)))) ;;;
              modify (set_env_for_fetch
                        (insert "METAFLOW_TASK_ID" (FetchStr task_id))) ;;;
              self <- get ;;
              let r := resolve_fetch_at_exec_env (_env self) (_step_name self)
                                                 (_env_for_fetch self) in
              modify (set_env_id r) ;;;
              match r with
              | None =>
                  raise (InvalidEnvironmentException
                           "Cannot find the environment ID for a fetch-at-exec step")
              | Some _ => ret tt
              end
          | _ => raise ValueError
          end
      end
    else
      match get_env_id_noconda (_env self) (_step_name self) with
      | inr t => modify (set_env_id (Some t))
      | inl t =>
          raise (InvalidEnvironmentException
                   ("Unexpected ID for the Conda environment for step '"
                      ++ _step_name self ++ "': '" ++ t ++ "'"))
      end
  else ret tt.

Definition echo (msg : string) : M (CLIArgs * World) unit :=
  on_snd (modify (add_echo msg)).

(** A call on [self._env.conda]: the answer is computed from the calls
    made so far, and the call is recorded. *)
Definition conda_call {A} (self : Self) (c : CondaCall)
    (answer : Conda -> list CondaCall -> A) : M (CLIArgs * World) A :=
  on_snd (fun w => (Ok (answer (conda (_env self)) (conda_calls w)),
                    add_conda_call c w)).

Definition runtime_step_cli (self : Self) (retry_count max_user_code_retries : Z)
    (ubf_context : option string) : M (CLIArgs * World) unit :=
  if call_is_enabled cls self (Some UBF_TASK)
     || call_is_fetch_at_exec cls self ubf_context then
    on_fst (modify (set_cli_env "_METAFLOW_CONDA_ENV"
                                (json_dumps host (_env_id self)))) ;;;
    if _is_remote self || negb (call_is_enabled cls self ubf_context) then ret tt
    else
      env_id <- match _env_id self with
                | Some e => ret e
                | None => raise AssertionError
                end ;;
      existing_env_info <-
        conda_call self (CallCreatedEnvironment env_id)
                   (fun c calls => created_environment c calls env_id) ;;
      entrypoint <-
        match existing_env_info with
        | Some info =>
            echo ("Using existing Conda environment " ++ req_id env_id
                    ++ " (" ++ full_id env_id ++ ")") ;;;
            ret (Some (Py.path_join (snd info) ["bin"; "python"]))
        | None =>
            echo ("Creating Conda environment " ++ req_id env_id
                    ++ " (" ++ full_id env_id ++ ")...") ;;;
            resolved_env <-
              conda_call self (CallEnvironment env_id)
                         (fun c calls => environment c calls env_id) ;;
            match resolved_env with
            | Some renv =>
                prefix <-
                  conda_call self (CallCreateForStep (_step_name self) renv)
                    (fun c calls => create_for_step c calls (_step_name self) renv) ;;
                ret (Some (Py.path_join prefix ["bin"; "python"]))
            | None =>
                raise (InvalidEnvironmentException "Cannot create environment")
            end
        end ;;
      python_path <- match _metaflow_home self with
                     | Some h => ret h
                     | None => raise (AttributeError "_metaflow_home")
                     end ;;
      let python_path :=
        match _addl_paths self with
        | Some paths =>
            let addl_paths := Py.join Py.pathsep paths in
            Py.join Py.pathsep [addl_paths; python_path]
        | None => python_path
        end in
      on_fst (modify (set_cli_env "PYTHONPATH" python_path)) ;;;
      match entrypoint with
      | None =>
          raise (InvalidEnvironmentException "No executable found for environment")
      | Some entrypoint =>
          (if Py.startswith "linux" (arch_id host) then
             old_ld_path <- on_snd (OS.environ_get "LD_LIBRARY_PATH") ;;
             match old_ld_path with
             | Some old =>
                 if Py.truthy old then
                   on_fst (modify (set_cli_env "LD_LIBRARY_PATH"
                     (Py.join ":" [Py.path_join
                                     (Py.dirname (Py.dirname entrypoint)) ["lib"];
                                   old])))
                 else ret tt
             | None => ret tt
             end
           else ret tt) ;;;
          on_fst (set_entrypoint0 entrypoint)
      end
  else ret tt.

Definition task_pre_step (self : Self) (step_name : string) (run_id task_id : string)
    (retry_count max_user_code_retries : Z) (ubf_context : option string)
    : M World unit :=
  if call_is_enabled cls self ubf_context then
    let env_path := Py.dirname (realpath_sys_executable host) in
    old_path <- OS.environ_get "PATH" ;;
    let env_path :=
      match old_path with
      | Some old => Py.join Py.pathsep [env_path; old]
      | None => env_path
      end in
    OS.environ_set "PATH" env_path ;;;
    value <- OS.environ_item "_METAFLOW_CONDA_ENV" ;;
    modify (add_registered
              (run_id, step_name, task_id,
               [mkMetaDatum "conda_env_id" value "conda_env_id"
                            ["attempt_id:" ++ Py.str_of_int retry_count]]))
  else ret tt.

Definition runtime_finished (self : Self) : M World unit :=
  match _metaflow_home self with
  | Some home => OS.rmtree home
  | None => raise (AttributeError "_metaflow_home")
  end.

End CondaEnvInternalDecorator.

(** ** Notions the properties are stated with *)

(** [self._env_for_fetch] once the loop of [runtime_task_created] has gone
    through the parameters [params] with parent datastore [ds]. *)
Definition record_parameters (host : Host) (params : list string) (ds : TaskDataStore)
    (vars : gmap string FetchVal) : gmap string FetchVal :=
  fold_left (fun e var => <[init_key host var := FetchParam var ds]> e) params vars.

(** The three entries [runtime_init] records for a fetch-at-exec step. *)
Definition record_run (run_id step_name : string)
    (vars : gmap string FetchVal) : gmap string FetchVal :=
  <["METAFLOW_STEP_NAME" := FetchStr step_name]>
    (<["METAFLOW_RUN_ID_BASE" := FetchStr run_id]>
       (<["METAFLOW_RUN_ID" := FetchStr run_id]> vars)).

(** Environments are enabled for the step [step_name] in context
    [ubf_context], whatever else the decorator object holds. *)
Definition enabled_step (cls : Methods) (step_name : string)
    (ubf_context : option string) : Prop :=
  forall self, _step_name self = step_name ->
               call_is_enabled cls self ubf_context = true.

(** The step [step_name] is a fetch-at-exec step. *)
Definition fetch_at_exec_step (cls : Methods) (step_name : string) : Prop :=
  forall self ubf_context,
    _step_name self = step_name ->
    call_is_fetch_at_exec cls self ubf_context = true.

(** [b] is [a] but for the two attributes [runtime_init] sets first. *)
Definition same_but_home (a b : Self) : Prop :=
  _env b = _env a /\ _flow b = _flow a /\ _step_name b = _step_name a
  /\ _flow_datastore b = _flow_datastore a
  /\ _env_for_fetch b = _env_for_fetch a /\ _env_id b = _env_id a
  /\ _is_remote b = _is_remote a.

(** [post m s Q]: running [m] from [s] ends, returning or raising, in an
    outcome and a state that satisfy [Q]. *)
Definition post {S A} (m : M S A) (s : S) (Q : Res A -> S -> Prop) : Prop :=
  Q (fst (m s)) (snd (m s)).

(** [m] keeps the property [P] of the decorator object, however it ends. *)
Definition keeps_self {A} (P : Self -> Prop) (m : M (Self * World) A) : Prop :=
  forall s, P (fst s) -> P (fst (snd (m s))).

(** The entry [c] of the directory [h]. *)
Definition child (h c : string) : string := h ++ "/" ++ c.

(** A path that names a directory the way [tempfile] returns it: not
    empty, no slash at the end. *)
Definition dir_path (h : string) : Prop :=
  h <> EmptyString /\ Py.endswith_sep h = false.

(** Every entry of the file system but the top sits in a directory. *)
Definition fs_wf (f : gmap string Node) : Prop :=
  forall p n, f !! p = Some n -> Py.dirname p <> p -> f !! Py.dirname p = Some Dir.

(** What [runtime_init] may do to the file system [fs0] it starts from:
    everything outside the tree of [home] is as in [fs0], and [home] is a
    directory. *)
Definition home_tree (fs0 : gmap string Node) (home : string)
    (f : gmap string Node) : Prop :=
  (forall p, OS.under home p = false -> f !! p = fs0 !! p)
  /\ f !! home = Some Dir.

(** The two entries of [home] that [link_metaflow] makes. *)
Definition linked (home : string) (link info : Node) (f : gmap string Node) : Prop :=
  f !! child home "metaflow" = Some link /\ f !! child home "INFO" = Some info.

(** How many directories [link_extensions] makes inside the home: one for
    each path of a namespace package. *)
Definition temp_dirs_needed (host : Host) : nat :=
  match ext_pkg_path host with
  | None => 0
  | Some m_path =>
      match list_of_set host m_path with
      | [_] => 0
      | custom_paths => length custom_paths
      end
  end.

(** The names [tempfile] has left are all different, hold no slash, and
    none of them is in use inside [home]. *)
Definition names_free (home : string) (w : World) : Prop :=
  NoDup (candidate_names w)
  /\ Forall (fun m => Py.has_sep m = false) (candidate_names w)
  /\ Forall (fun m => fs w !! child home ("tmp" ++ m) = None) (candidate_names w).

(** The outcome of the middle of [runtime_step_cli] (looking for the
    environment, or building it): the directory of the environment, if
    there is one in the end, and the world with the calls made and the
    line sent to the logger. *)
Definition obtain_environment (self : Self) (env_id : EnvID) (w : World)
    : option string * World :=
  let c := conda (_env self) in
  let w1 := add_conda_call (CallCreatedEnvironment env_id) w in
  match created_environment c (conda_calls w) env_id with
  | Some info =>
      (Some (snd info),
       add_echo ("Using existing Conda environment " ++ req_id env_id
                   ++ " (" ++ full_id env_id ++ ")") w1)
  | None =>
      let w2 :=
        add_conda_call (CallEnvironment env_id)
          (add_echo ("Creating Conda environment " ++ req_id env_id
                       ++ " (" ++ full_id env_id ++ ")...") w1) in
      match environment c (conda_calls w1) env_id with
      | Some renv =>
          (Some (create_for_step c (conda_calls w2) (_step_name self) renv),
           add_conda_call (CallCreateForStep (_step_name self) renv) w2)
      | None => (None, w2)
      end
  end.

(** [cli_args.env] once [runtime_step_cli] has set the module path and,
    on Linux with a library path in [os.environ], the library path. *)
Definition child_env (host : Host) (self : Self) (env_id : EnvID) (home : string)
    (entry : string) (w : World) (cli : CLIArgs) : CLIArgs :=
  let python_path :=
    match _addl_paths self with
    | Some paths => Py.join ":" paths ++ ":" ++ home
    | None => home
    end in
  let cli1 :=
    set_cli_env "PYTHONPATH" python_path
      (set_cli_env "_METAFLOW_CONDA_ENV" (json_dumps host (Some env_id)) cli) in
  if Py.startswith "linux" (arch_id host) then
    match os_environ w !! "LD_LIBRARY_PATH" with
    | Some old =>
        if Py.truthy old then
          set_cli_env "LD_LIBRARY_PATH"
            (Py.path_join (Py.dirname (Py.dirname entry)) ["lib"] ++ ":" ++ old) cli1
        else cli1
    | None => cli1
    end
  else cli1.

(** [s.count("/")] *)
Fixpoint count_sep (s : string) : nat :=
  match s with
  | EmptyString => 0
  | String c r => (if Py.is_sep c then 1 else 0) + count_sep r
  end.

(** [w'] differs from [w] in the file system and the names of [tempfile]
    at most. *)
Definition same_process (w w' : World) : Prop :=
  os_environ w' = os_environ w /\ echoed w' = echoed w
  /\ conda_calls w' = conda_calls w /\ registered w' = registered w.

(** [m] keeps the property [P] of the world, however it ends. *)
Definition keeps_world {S A} (P : World -> Prop) (m : M (S * World) A) : Prop :=
  forall s, P (snd s) -> P (snd (snd (m s))).

(** What one round of the loop of [link_extensions] is handed, and hands
    on. *)
Definition round_ready (fs0 : gmap string Node) (home : string)
    (link info : Node) (w : World) : Prop :=
  fs_wf (fs w) /\ home_tree fs0 home (fs w) /\ linked home link info (fs w)
  /\ names_free home w.

(** ** A concrete host, flow and world

    A two-parameter flow with one step on Linux, a [Conda] object that
    knows one environment already built, and a file system holding [/tmp]
    and an installed metaflow without an [INFO] file. *)

Module Demo.

Definition env_a : EnvID := mkEnvID "5f3b" "a91c" "linux-64".
Definition env_b : EnvID := mkEnvID "77d0" "c2e4" "linux-64".
Definition env_c : EnvID := mkEnvID "0000" "ffff" "linux-64".

(** [env_a] is built already; [env_b] can be resolved and built; nothing
    else is known. *)
Definition the_conda : Conda :=
  {| created_environment := fun _ e =>
       if String.eqb (req_id e) "5f3b" then Some (e, "/opt/conda/envs/a") else None;
     environment := fun _ e =>
       if String.eqb (req_id e) "77d0" then Some (mkResolved e) else None;
     create_for_step := fun _ step r =>
       "/opt/conda/envs/" ++ step ++ "_" ++ req_id (resolved_env_id r) |}.

Definition the_env : CondaEnvironment :=
  {| TYPE := "conda";
     get_env_id_noconda := fun step =>
       if String.eqb step "start" then inr env_a
       else if String.eqb step "train" then inr env_b
       else inl "_fetch_exec";
     resolve_fetch_at_exec_env := fun step vars =>
       match vars !! "METAFLOW_TASK_ID" with
       | Some (FetchStr "7") => Some env_a
       | _ => None
       end;
     get_environment_info_json := "{}";
     conda := the_conda |}.

Definition local_env : CondaEnvironment :=
  {| TYPE := "local";
     get_env_id_noconda := fun _ => inl EmptyString;
     resolve_fetch_at_exec_env := fun _ _ => None;
     get_environment_info_json := "{}";
     conda := the_conda |}.

Definition quoted (s : string) : string :=
  String (ascii_of_nat 34) s ++ String (ascii_of_nat 34) EmptyString.

Definition the_host : Host :=
  {| CONDA_REMOTE_COMMANDS := ["batch"; "kubernetes"];
     get_metaflow_root := "/usr/lib/python3/site-packages";
     enabled_for_step := fun step => negb (String.eqb step "end");
     ext_pkg_path := Some ["/src/ext_a"; "/src/ext_b"];
     list_of_set := fun l => l;
     trampolines := [("sklearn", "# trampoline")];
     arch_id := "linux-64";
     realpath_sys_executable := "/opt/conda/envs/a/bin/python3.10";
     json_dumps := fun e =>
       match e with
       | None => "null"
       | Some e => "[" ++ quoted (req_id e) ++ ", " ++ quoted (full_id e)
                     ++ ", " ++ quoted (arch e) ++ "]"
       end;
     (* the names of this flow are ASCII *)
     str_upper := Py.ascii_upper;
     getcwd := "/" |}.

Definition the_flow : FlowSpec := {| _get_parameters := ["alpha"; "max-depth"] |}.

Definition self_at (step : string) (id : option EnvID) (remote : bool) : Self :=
  mkSelf the_env the_flow step {| flow_name := "TrainFlow" |} ∅ id remote
         (Some "/tmp/tmpq1w2e3r4") None.

(** The decorator of the step [train] of a flow with two parameters whose
    names differ in case only, before [runtime_init]. *)
Definition twin_flow : FlowSpec := {| _get_parameters := ["alpha"; "Alpha"] |}.

Definition twin_self : Self :=
  mkSelf the_env twin_flow "train" {| flow_name := "TwinFlow" |} ∅ None false
         None None.

Definition the_fs : gmap string Node :=
  list_to_map [("/", Dir); ("/tmp", Dir); ("/tmp/tmpaaaaaaaa", Dir);
               ("/usr", Dir)].

Definition the_world : World :=
  mkWorld (list_to_map [("LD_LIBRARY_PATH", "/usr/lib"); ("PATH", "/usr/bin")])
          the_fs ["aaaaaaaa"; "b0b0b0b0"; "c1c1c1c1"; "d2d2d2d2"] [] [] [].



Definition the_cli : CLIArgs :=
  mkCLIArgs ["/usr/bin/python3"; "flow.py"] ∅.

(** A subclass that resolves its environment at execution time. *)
Definition FetchAtExecDecorator : Methods :=
  {| call_is_enabled := _is_enabled the_host;
     call_is_fetch_at_exec := fun _ _ => true |}.

(** The process the task runs in, started from [cli_args.env]. *)
Definition child_world : World :=
set_os_environ (insert "_METAFLOW_CONDA_ENV" "[5f3b]") the_world.

(** The decorator object and the world once [runtime_init] has run for
  run 12 of a fetch-at-exec step. *)
Definition after_init : Self * World :=
snd (runtime_init the_host FetchAtExecDecorator "12"
                  (self_at "train" None false, the_world)).

(** The hooks of the class in the order of the runtime, for the step
    [train] of run 12. *)
Definition after_step_init : Res unit * (Self * World) :=
  step_init the_host the_flow "train" [] the_env {| flow_name := "TrainFlow" |}
            (self_at EmptyString None false, the_world).

Definition after_runtime_init : Self * World :=
  snd (runtime_init the_host (CondaEnvInternalDecorator the_host) "12"
                    (fst (snd after_step_init), snd (snd after_step_init))).

Definition after_lifecycle : Self * World :=
  (snd (runtime_task_created the_host (CondaEnvInternalDecorator the_host) "9" 0
                             ["12/start/7"] false None (fst after_runtime_init)),
   snd after_runtime_init).

(** A mixin class that only carries attributes. *)
Definition plain_mixin : ClassBody :=
{| attr_name := None; def_step_init := None |}.

End Demo.

(** * Properties *)

(** ** Reasoning about hooks *)

Lemma bind_run {S A B} (m : M S A) (k : A -> M S B) (s : S) :
  bind m k s = match m s with
               | (Ok a, s') => k a s'
               | (Raise e, s') => (Raise e, s')
               end.
Proof. reflexivity. Qed.

Lemma post_bind {S A B} (m : M S A) (k : A -> M S B) (s : S)
    (Q : Res B -> S -> Prop) :
  post m s (fun r s' => match r with
                        | Ok a => post (k a) s' Q
                        | Raise e => Q (Raise e) s'
                        end) ->
  post (bind m k) s Q.
Proof.
  unfold post. rewrite bind_run. destruct (m s) as [[a|e] s']; simpl; auto.
Qed.

Lemma post_weaken {S A} (m : M S A) (s : S) (Q Q' : Res A -> S -> Prop) :
  post m s Q -> (forall r s', Q r s' -> Q' r s') -> post m s Q'.
Proof. unfold post. auto. Qed.

Lemma post_run {S A} (m : M S A) (s : S) (Q : Res A -> S -> Prop) r s' :
  m s = (r, s') -> post m s Q -> Q r s'.
Proof. unfold post. intros ->. auto. Qed.

(** A loop keeps an invariant that each round keeps. *)
Lemma post_for_each {S A} (I : S -> Prop) (l : list A) (body : A -> M S unit) :
  (forall x s, x ∈ l -> I s -> post (body x) s (fun _ s' => I s')) ->
  forall s, I s -> post (for_each l body) s (fun _ s' => I s').
Proof.
  induction l as [|x l IH]; intros Hbody s Hs.
  - exact Hs.
  - simpl. apply post_bind.
    eapply post_weaken; [apply (Hbody x s); [left|exact Hs]|].
    intros [[]|e] s' Hs'; [|exact Hs'].
    apply IH; [|exact Hs']. intros y s0 Hy. apply Hbody. by right.
Qed.

Ltac run_hook :=
  unfold bind, on_fst, on_snd, modify, ret, raise, get; simpl.

(** ** The guards *)

Section Guards.

Variable host : Host.
Variable cls : Methods.

Lemma is_enabled_control (self : Self) :
    _is_enabled host self (Some UBF_CONTROL) = false.
Proof. reflexivity. Qed.

Lemma is_enabled_worker (self : Self) (ubf_context : option string) :
    _is_enabled host self ubf_context = true <->
    ubf_context <> Some UBF_CONTROL /\ enabled_for_step host (_step_name self) = true.
Proof.
    unfold _is_enabled. case_bool_decide; split; tauto || discriminate || auto.
Qed.

  (** What [runtime_step_cli] does when it stops right after exporting the
      environment ID. *)
Lemma runtime_step_cli_export_only (self : Self) (retry_count max_retries : Z)
      (ubf_context : option string) (cli : CLIArgs) (w : World) :
    call_is_enabled cls self (Some UBF_TASK)
      || call_is_fetch_at_exec cls self ubf_context = true ->
    _is_remote self || negb (call_is_enabled cls self ubf_context) = true ->
    runtime_step_cli host cls self retry_count max_retries ubf_context (cli, w)
    = (Ok tt, (set_cli_env "_METAFLOW_CONDA_ENV" (json_dumps host (_env_id self)) cli,
               w)).
Proof.
    intros H1 H2. unfold runtime_step_cli. rewrite H1. run_hook.
    rewrite H2. reflexivity.
Qed.

Lemma runtime_step_cli_disabled (self : Self) (retry_count max_retries : Z)
      (ubf_context : option string) (cli : CLIArgs) (w : World) :
    call_is_enabled cls self (Some UBF_TASK)
      || call_is_fetch_at_exec cls self ubf_context = false ->
    runtime_step_cli host cls self retry_count max_retries ubf_context (cli, w)
    = (Ok tt, (cli, w)).
Proof. intros H1. unfold runtime_step_cli. rewrite H1. reflexivity. Qed.

End Guards.

(** C3. When [ubf_context] is [UBF_CONTROL], [_is_enabled] returns [False];
    so for a control task [runtime_task_created] and [task_pre_step] do
    nothing, and [runtime_step_cli] returns without a call on the [Conda]
    object, leaving the world (no environment created) and the entry point
    of the command as they were. *)
Theorem control_task_never_provisions (host : Host) (self : Self)
    (task_id step_name run_id : string) (split_index retry_count max_retries : Z)
    (input_paths : list string) (is_cloned : bool) (cli : CLIArgs) (w : World) :
  let D := CondaEnvInternalDecorator host in
  _is_enabled host self (Some UBF_CONTROL) = false
  /\ runtime_task_created host D task_id split_index input_paths is_cloned
       (Some UBF_CONTROL) self = (Ok tt, self)
  /\ task_pre_step host D self step_name run_id task_id retry_count max_retries
       (Some UBF_CONTROL) w = (Ok tt, w)
  /\ exists cli',
       runtime_step_cli host D self retry_count max_retries (Some UBF_CONTROL) (cli, w)
       = (Ok tt, (cli', w))
       /\ entrypoint cli' = entrypoint cli.
Proof.
  intros D. do 3 (split; [reflexivity|]).
  destruct (enabled_for_step host (_step_name self)) eqn:He.
  - eexists. split.
    + apply runtime_step_cli_export_only; simpl.
      * unfold _is_enabled. simpl. rewrite He. reflexivity.
      * apply orb_true_r.
    + reflexivity.
  - exists cli. split; [|reflexivity].
    apply runtime_step_cli_disabled. simpl. unfold _is_enabled. simpl.
    rewrite He. reflexivity.
Qed.

(** C4. If [self._is_remote] holds or [_is_enabled(ubf_context)] is false,
    while [_is_enabled(UBF_TASK)] or [_is_fetch_at_exec(ubf_context)] holds,
    [runtime_step_cli] returns after setting [_METAFLOW_CONDA_ENV] in
    [cli_args.env] and nothing else: the entry point, [PYTHONPATH] and
    [LD_LIBRARY_PATH] are as before, and the world, with the calls made on
    the [Conda] object, is untouched. *)
Theorem remote_or_control_only_exports (host : Host) (cls : Methods) (self : Self)
    (retry_count max_retries : Z) (ubf_context : option string)
    (cli : CLIArgs) (w : World) :
  _is_remote self = true \/ call_is_enabled cls self ubf_context = false ->
  call_is_enabled cls self (Some UBF_TASK) = true
    \/ call_is_fetch_at_exec cls self ubf_context = true ->
  exists cli',
    runtime_step_cli host cls self retry_count max_retries ubf_context (cli, w)
    = (Ok tt, (cli', w))
    /\ env cli' = <["_METAFLOW_CONDA_ENV" := json_dumps host (_env_id self)]> (env cli)
    /\ entrypoint cli' = entrypoint cli
    /\ env cli' !! "PYTHONPATH" = env cli !! "PYTHONPATH"
    /\ env cli' !! "LD_LIBRARY_PATH" = env cli !! "LD_LIBRARY_PATH".
Proof.
  intros Hstop Hexport. eexists. split.
  - apply runtime_step_cli_export_only.
    + destruct Hexport as [-> | ->]; [reflexivity | apply orb_true_r].
    + destruct Hstop as [-> | ->]; [reflexivity | apply orb_true_r].
  - simpl. repeat split; by rewrite lookup_insert_ne.
Qed.

Lemma remote_or_control_only_exports_witness :
  exists cli',
    runtime_step_cli Demo.the_host (CondaEnvInternalDecorator Demo.the_host)
      (Demo.self_at "train" (Some Demo.env_b) true) 0 3 None
      (Demo.the_cli, Demo.the_world)
    = (Ok tt, (cli', Demo.the_world))
    /\ env cli' = <["_METAFLOW_CONDA_ENV" :=
                     json_dumps Demo.the_host (Some Demo.env_b)]> (env Demo.the_cli)
    /\ entrypoint cli' = entrypoint Demo.the_cli
    /\ env cli' !! "PYTHONPATH" = env Demo.the_cli !! "PYTHONPATH"
    /\ env cli' !! "LD_LIBRARY_PATH" = env Demo.the_cli !! "LD_LIBRARY_PATH".
Proof.
  apply (remote_or_control_only_exports Demo.the_host
           (CondaEnvInternalDecorator Demo.the_host)
           (Demo.self_at "train" (Some Demo.env_b) true) 0 3 None).
  - left. reflexivity.
  - left. reflexivity.
Defined.

(** ** The package-requirement decorators *)

Lemma mro_lookup_skip {A} (sel : ClassBody -> option A) (pre post : list ClassBody) :
  Forall (fun c => sel c = None) pre ->
  mro_lookup sel (pre ++ post) = mro_lookup sel post.
Proof.
  induction 1 as [|c pre Hc _ IH]; [reflexivity|]. simpl. by rewrite Hc.
Qed.

Lemma package_step_init_run (self_name : string) (environment : CondaEnvironment)
    (w : World) :
  PackageRequirementStepDecorator.step_init self_name environment w
  = if String.eqb (TYPE environment) "conda" then (Ok tt, w)
    else (Raise (InvalidEnvironmentException
                   ("The *@" ++ self_name ++ "* decorator requires --environment=conda")),
          w).
Proof.
  unfold PackageRequirementStepDecorator.step_init.
  by destruct (String.eqb (TYPE environment) "conda").
Qed.

(** C10. [PackageRequirementStepDecorator.step_init] raises
    [InvalidEnvironmentException] exactly when [environment.TYPE] is not
    ["conda"], and when it does not raise it returns with the world as it
    was. The [@conda] and [@pypi] step decorators, whose classes define no
    [step_init] of their own, run this very guard under their own name,
    provided the classes their mixins bring into the resolution order
    define no [step_init] either. *)
Theorem package_requirement_guard (mixin_conda mixin_pypi : list ClassBody)
    (self_name : string) (environment : CondaEnvironment) (w : World) :
  Forall (fun c => def_step_init c = None) mixin_conda ->
  Forall (fun c => def_step_init c = None) mixin_pypi ->
  ((exists msg w',
      PackageRequirementStepDecorator.step_init self_name environment w
      = (Raise (InvalidEnvironmentException msg), w'))
   <-> TYPE environment <> "conda")
  /\ (TYPE environment = "conda" ->
      PackageRequirementStepDecorator.step_init self_name environment w = (Ok tt, w))
  /\ call_step_init PackageRequirementStepDecorator_mro environment
     = PackageRequirementStepDecorator.step_init "step_package_req" environment
  /\ call_step_init (CondaRequirementStepDecorator_mro mixin_conda) environment
     = PackageRequirementStepDecorator.step_init "conda" environment
  /\ call_step_init (PypiRequirementStepDecorator_mro mixin_pypi) environment
     = PackageRequirementStepDecorator.step_init "pypi" environment.
Proof.
  intros Hc Hp. rewrite package_step_init_run.
  destruct (String.eqb_spec (TYPE environment) "conda") as [Heq|Hne].
  - split; [|split; [reflexivity|]].
    + split; [intros (msg & w' & H); discriminate | tauto].
    + repeat split; unfold call_step_init; simpl; try reflexivity;
        by rewrite mro_lookup_skip.
  - split; [|split; [tauto|]].
    + split; [auto | intros _; eauto].
    + repeat split; unfold call_step_init; simpl; try reflexivity;
        by rewrite mro_lookup_skip.
Qed.

Lemma package_requirement_guard_witness :
  ((exists msg w',
      PackageRequirementStepDecorator.step_init "pypi" Demo.local_env Demo.the_world
      = (Raise (InvalidEnvironmentException msg), w'))
   <-> TYPE Demo.local_env <> "conda")
  /\ (TYPE Demo.local_env = "conda" ->
      PackageRequirementStepDecorator.step_init "pypi" Demo.local_env Demo.the_world
      = (Ok tt, Demo.the_world))
  /\ call_step_init PackageRequirementStepDecorator_mro Demo.local_env
     = PackageRequirementStepDecorator.step_init "step_package_req" Demo.local_env
  /\ call_step_init (CondaRequirementStepDecorator_mro [Demo.plain_mixin]) Demo.local_env
     = PackageRequirementStepDecorator.step_init "conda" Demo.local_env
  /\ call_step_init (PypiRequirementStepDecorator_mro [Demo.plain_mixin]) Demo.local_env
     = PackageRequirementStepDecorator.step_init "pypi" Demo.local_env.
Proof.
  apply (package_requirement_guard [Demo.plain_mixin] [Demo.plain_mixin] "pypi"
           Demo.local_env Demo.the_world).
  - repeat constructor.
  - repeat constructor.
Defined.

(** ** What [runtime_step_cli] does to [cli_args.env] *)

Section StepCli.

Variable host : Host.
Variable cls : Methods.

(** Once exported, [_METAFLOW_CONDA_ENV] stays as it is until the hook
    ends, whichever way it ends. *)
Lemma runtime_step_cli_exports (self : Self) (retry_count max_retries : Z)
    (ubf_context : option string) (cli : CLIArgs) (w : World) :
  call_is_enabled cls self (Some UBF_TASK)
    || call_is_fetch_at_exec cls self ubf_context = true ->
  env (fst (snd (runtime_step_cli host cls self retry_count max_retries
                                  ubf_context (cli, w))))
    !! "_METAFLOW_CONDA_ENV"
  = Some (json_dumps host (_env_id self)).
Proof.
  intros H. unfold runtime_step_cli. rewrite H. clear H.
  unfold conda_call, echo, set_entrypoint0, OS.environ_get. run_hook.
  repeat (case_match; simpl in *; simplify_eq; try done);
    by simplify_map_eq.
Qed.

End StepCli.

(** ** [step_init] and [task_pre_step] on the process environment *)

Section ProcessEnvironment.

Variable host : Host.
Variable cls : Methods.

Lemma step_init_run (flow : FlowSpec) (step_name : string) (decorators : list string)
    (environment : CondaEnvironment) (flow_datastore : FlowDataStore)
    (self : Self) (w : World) :
  exists self',
    step_init host flow step_name decorators environment flow_datastore (self, w)
    = (Ok tt, (self', set_os_environ (insert "PYTHONNOUSERSITE" "1") w))
    /\ _env_id self' = None /\ _env_for_fetch self' = ∅
    /\ _step_name self' = step_name /\ _env self' = environment.
Proof. eexists. split; [reflexivity|]. simpl. auto. Qed.

Lemma task_pre_step_run (self : Self) (step_name run_id task_id : string)
    (retry_count max_retries : Z) (ubf_context : option string) (w : World) :
  call_is_enabled cls self ubf_context = true ->
  task_pre_step host cls self step_name run_id task_id retry_count max_retries
                ubf_context w
  = let new_path :=
      match os_environ w !! "PATH" with
      | Some old => Py.dirname (realpath_sys_executable host) ++ ":" ++ old
      | None => Py.dirname (realpath_sys_executable host)
      end in
    let w1 := set_os_environ (insert "PATH" new_path) w in
    match os_environ w !! "_METAFLOW_CONDA_ENV" with
    | Some value =>
        (Ok tt,
         add_registered
           (run_id, step_name, task_id,
            [mkMetaDatum "conda_env_id" value "conda_env_id"
                         ["attempt_id:" ++ Py.str_of_int retry_count]]) w1)
    | None => (Raise (KeyError "_METAFLOW_CONDA_ENV"), w1)
    end.
Proof.
  intros He. unfold task_pre_step. rewrite He.
  unfold OS.environ_get, OS.environ_set, OS.environ_item.
  run_hook. rewrite lookup_insert_ne by done.
  destruct (os_environ w !! "PATH"), (os_environ w !! "_METAFLOW_CONDA_ENV");
    reflexivity.
Qed.

End ProcessEnvironment.

(** C6. For a step with environments enabled, [runtime_step_cli] leaves
    [json.dumps(self._env_id)] under [_METAFLOW_CONDA_ENV] in
    [cli_args.env], however the hook ends; and [task_pre_step], when
    enabled and started in a process whose [os.environ] holds [value]
    under [_METAFLOW_CONDA_ENV], returns after registering, for its run,
    step and task, one [MetaDatum] of field [conda_env_id] with that value
    and the tag [attempt_id:<retry_count>]. *)
Theorem env_id_crosses_process_boundary (host : Host) (cls : Methods)
    (self : Self) (retry_count max_retries : Z) (ubf_context : option string)
    (cli : CLIArgs) (w : World)
    (child : Self) (step_name run_id task_id value : string)
    (child_retry_count child_max_retries : Z) (child_ubf_context : option string)
    (w_child : World) :
  call_is_enabled cls self (Some UBF_TASK) = true
    \/ call_is_fetch_at_exec cls self ubf_context = true ->
  call_is_enabled cls child child_ubf_context = true ->
  os_environ w_child !! "_METAFLOW_CONDA_ENV" = Some value ->
  env (fst (snd (runtime_step_cli host cls self retry_count max_retries
                                  ubf_context (cli, w))))
    !! "_METAFLOW_CONDA_ENV"
  = Some (json_dumps host (_env_id self))
  /\ exists w',
       task_pre_step host cls child step_name run_id task_id child_retry_count
                     child_max_retries child_ubf_context w_child
       = (Ok tt, w')
       /\ registered w'
          = (run_id, step_name, task_id,
             [mkMetaDatum "conda_env_id" value "conda_env_id"
                          ["attempt_id:" ++ Py.str_of_int child_retry_count]])
              :: registered w_child.
Proof.
  intros Hexport Henabled Hvalue. split.
  - apply runtime_step_cli_exports.
    destruct Hexport as [-> | ->]; [reflexivity | apply orb_true_r].
  - rewrite task_pre_step_run by exact Henabled. rewrite Hvalue.
    eexists. split; reflexivity.
Qed.

Lemma env_id_crosses_process_boundary_witness :
  env (fst (snd (runtime_step_cli Demo.the_host
                   (CondaEnvInternalDecorator Demo.the_host)
                   (Demo.self_at "train" (Some Demo.env_b) false) 0 3 None
                   (Demo.the_cli, Demo.the_world))))
    !! "_METAFLOW_CONDA_ENV"
  = Some (json_dumps Demo.the_host (Some Demo.env_b))
  /\ exists w',
       task_pre_step Demo.the_host (CondaEnvInternalDecorator Demo.the_host)
                     (Demo.self_at "train" (Some Demo.env_b) false)
                     "train" "12" "9" 2 3 None Demo.child_world
       = (Ok tt, w')
       /\ registered w'
          = ("12", "train", "9",
             [mkMetaDatum "conda_env_id" "[5f3b]" "conda_env_id"
                          ["attempt_id:" ++ Py.str_of_int 2]])
              :: registered Demo.child_world.
Proof.
  apply (env_id_crosses_process_boundary Demo.the_host
           (CondaEnvInternalDecorator Demo.the_host)
           (Demo.self_at "train" (Some Demo.env_b) false) 0 3 None
           Demo.the_cli Demo.the_world
           (Demo.self_at "train" (Some Demo.env_b) false)
           "train" "12" "9" "[5f3b]" 2 3 None Demo.child_world).
  - left. reflexivity.
  - reflexivity.
  - reflexivity.
Defined.

(** C9. The decorator changes the environment of the process it runs in:
    [step_init] always returns with [os.environ["PYTHONNOUSERSITE"]] set to
    ["1"], and [task_pre_step], when enabled, leaves [os.environ["PATH"]]
    set to the directory of the resolved [sys.executable], followed by
    [":"] and the previous [PATH] when there was one; nothing else in
    [os.environ] changes. *)
Theorem parent_environment_mutated (host : Host) (cls : Methods)
    (flow : FlowSpec) (init_step_name : string) (decorators : list string)
    (environment : CondaEnvironment) (flow_datastore : FlowDataStore)
    (self0 : Self) (w0 : World)
    (self : Self) (step_name run_id task_id : string)
    (retry_count max_retries : Z) (ubf_context : option string) (w : World) :
  call_is_enabled cls self ubf_context = true ->
  (fst (step_init host flow init_step_name decorators environment flow_datastore
                  (self0, w0)) = Ok tt
   /\ os_environ (snd (snd (step_init host flow init_step_name decorators
                                       environment flow_datastore (self0, w0))))
      = <["PYTHONNOUSERSITE" := "1"]> (os_environ w0))
  /\ os_environ (snd (task_pre_step host cls self step_name run_id task_id
                                     retry_count max_retries ubf_context w))
     = <["PATH" := match os_environ w !! "PATH" with
                   | Some old =>
                       Py.dirname (realpath_sys_executable host) ++ ":" ++ old
                   | None => Py.dirname (realpath_sys_executable host)
                   end]> (os_environ w).
Proof.
  intros Henabled. split; [split; reflexivity|].
  rewrite task_pre_step_run by exact Henabled.
  destruct (os_environ w !! "_METAFLOW_CONDA_ENV"); reflexivity.
Qed.

Lemma parent_environment_mutated_witness :
  (fst (step_init Demo.the_host Demo.the_flow "train" ["batch"] Demo.the_env
                  {| flow_name := "TrainFlow" |}
                  (Demo.self_at EmptyString None false, Demo.the_world)) = Ok tt
   /\ os_environ (snd (snd (step_init Demo.the_host Demo.the_flow "train" ["batch"]
                              Demo.the_env {| flow_name := "TrainFlow" |}
                              (Demo.self_at EmptyString None false, Demo.the_world))))
      = <["PYTHONNOUSERSITE" := "1"]> (os_environ Demo.the_world))
  /\ os_environ (snd (task_pre_step Demo.the_host
                        (CondaEnvInternalDecorator Demo.the_host)
                        (Demo.self_at "train" None false) "train" "12" "9" 0 3
                        (Some UBF_TASK) Demo.the_world))
     = <["PATH" := match os_environ Demo.the_world !! "PATH" with
                   | Some old =>
                       Py.dirname (realpath_sys_executable Demo.the_host)
                         ++ ":" ++ old
                   | None => Py.dirname (realpath_sys_executable Demo.the_host)
                   end]> (os_environ Demo.the_world).
Proof.
  apply (parent_environment_mutated Demo.the_host
           (CondaEnvInternalDecorator Demo.the_host) Demo.the_flow "train"
           ["batch"] Demo.the_env {| flow_name := "TrainFlow" |}
           (Demo.self_at EmptyString None false) Demo.the_world
           (Demo.self_at "train" None false) "train" "12" "9" 0 3 (Some UBF_TASK)
           Demo.the_world).
  reflexivity.
Defined.

(** ** [runtime_task_created] *)

Section TaskCreated.

Variable host : Host.
Variable cls : Methods.

Lemma record_parameters_run (params : list string) (ds : TaskDataStore) (self : Self) :
  for_each params (fun var =>
    modify (set_env_for_fetch (insert (init_key host var) (FetchParam var ds)))) self
  = (Ok tt, set_env_for_fetch (record_parameters host params ds) self).
Proof.
  revert self. induction params as [|var params IH]; intros self.
  - destruct self. reflexivity.
  - simpl. rewrite bind_run. unfold modify at 1. rewrite IH.
    destruct self. reflexivity.
Qed.

(** The hook on a step that is not enabled in this context. *)
Lemma runtime_task_created_disabled (task_id : string) (split_index : Z)
    (input_paths : list string) (is_cloned : bool) (ubf_context : option string)
    (self : Self) :
  call_is_enabled cls self ubf_context = false ->
  runtime_task_created host cls task_id split_index input_paths is_cloned ubf_context self
  = (Ok tt, self).
Proof. intros H. unfold runtime_task_created. run_hook. by rewrite H. Qed.

(** The hook on the [get_env_id_noconda] path. *)
Lemma runtime_task_created_noconda (task_id : string) (split_index : Z)
    (input_paths : list string) (is_cloned : bool) (ubf_context : option string)
    (self : Self) :
  call_is_enabled cls self ubf_context = true ->
  call_is_fetch_at_exec cls self ubf_context = false ->
  runtime_task_created host cls task_id split_index input_paths is_cloned ubf_context self
  = match get_env_id_noconda (_env self) (_step_name self) with
    | inr t => (Ok tt, set_env_id (Some t) self)
    | inl t =>
        (Raise (InvalidEnvironmentException
                  ("Unexpected ID for the Conda environment for step '"
                     ++ _step_name self ++ "': '" ++ t ++ "'")),
         self)
    end.
Proof.
  intros He Hf. unfold runtime_task_created. run_hook. rewrite He, Hf.
  by destruct (get_env_id_noconda _ _).
Qed.

(** The hook on the fetch-at-exec path, once [input_paths[0]] has split
    into its three parts. *)
Lemma runtime_task_created_fetch (task_id : string) (split_index : Z)
    (path0 : string) (more_paths : list string) (is_cloned : bool)
    (ubf_context : option string) (self : Self)
    (parent_run parent_step parent_task : string) :
  call_is_enabled cls self ubf_context = true ->
  call_is_fetch_at_exec cls self ubf_context = true ->
  Py.split_sep path0 = [parent_run; parent_step; parent_task] ->
  runtime_task_created host cls task_id split_index (path0 :: more_paths) is_cloned
                       ubf_context self
  = let parent_ds :=
      get_task_datastore (_flow_datastore self) parent_run parent_step parent_task in
    let vars :=
      <["METAFLOW_TASK_ID" := FetchStr parent_task]>
        (record_parameters host (_get_parameters (_flow self)) parent_ds
                           (_env_for_fetch self)) in
    let found := resolve_fetch_at_exec_env (_env self) (_step_name self) vars in
    let self' := set_env_id found (set_env_for_fetch (fun _ => vars) self) in
    match found with
    | Some _ => (Ok tt, self')
    | None =>
        (Raise (InvalidEnvironmentException
                  "Cannot find the environment ID for a fetch-at-exec step"),
         self')
    end.
Proof.
  intros He Hf Hsplit. unfold runtime_task_created.
  rewrite bind_run. unfold get at 1. rewrite He, Hf, Hsplit.
  rewrite bind_run, record_parameters_run. run_hook.
  by destruct (resolve_fetch_at_exec_env _ _ _).
Qed.

End TaskCreated.

(** C2. In [runtime_task_created] for an enabled step the environment ID
    is looked for in one of two ways: on a fetch-at-exec step, by
    [resolve_fetch_at_exec_env] on the variables recorded for the parent
    task that [input_paths[0]] names (run id, step name, task id) and the
    flow parameters; otherwise by [get_env_id_noconda]. When the first
    returns [None], or the second something that is not an [EnvID],
    [InvalidEnvironmentException] is raised; otherwise the hook returns
    and [self._env_id] is the [EnvID] found. *)
Theorem unrecoverable_env_id_raises (host : Host) (cls : Methods) (task_id : string)
    (split_index : Z) (input_paths : list string) (is_cloned : bool)
    (ubf_context : option string) (self : Self)
    (parent_run parent_step parent_task : string) :
  call_is_enabled cls self ubf_context = true ->
  (call_is_fetch_at_exec cls self ubf_context = true ->
   exists path0 more_paths,
     input_paths = path0 :: more_paths
     /\ Py.split_sep path0 = [parent_run; parent_step; parent_task]) ->
  let recovered :=
    if call_is_fetch_at_exec cls self ubf_context then
      resolve_fetch_at_exec_env (_env self) (_step_name self)
        (<["METAFLOW_TASK_ID" := FetchStr parent_task]>
           (record_parameters host (_get_parameters (_flow self))
              (get_task_datastore (_flow_datastore self)
                                  parent_run parent_step parent_task)
              (_env_for_fetch self)))
    else
      match get_env_id_noconda (_env self) (_step_name self) with
      | inr env_id => Some env_id
      | inl _ => None
      end in
  let out :=
    runtime_task_created host cls task_id split_index input_paths is_cloned
                         ubf_context self in
  match recovered with
  | None => exists msg, fst out = Raise (InvalidEnvironmentException msg)
  | Some env_id => fst out = Ok tt /\ _env_id (snd out) = Some env_id
  end.
Proof.
  intros He Hpaths.
  destruct (call_is_fetch_at_exec cls self ubf_context) eqn:Hf; simpl.
  - destruct (Hpaths eq_refl) as (path0 & more & -> & Hsplit).
    rewrite (runtime_task_created_fetch host cls task_id split_index path0 more
               is_cloned ubf_context self parent_run parent_step parent_task
               He Hf Hsplit).
    simpl. destruct (resolve_fetch_at_exec_env _ _ _) eqn:Hr; simpl; eauto.
  - rewrite runtime_task_created_noconda by assumption.
    destruct (get_env_id_noconda _ _); simpl; eauto.
Qed.

Lemma unrecoverable_env_id_raises_witness :
  let out :=
    runtime_task_created Demo.the_host Demo.FetchAtExecDecorator "9" 0 ["12/start/7"] false
                         (Some UBF_TASK) (Demo.self_at "train" None false) in
  fst out = Ok tt /\ _env_id (snd out) = Some Demo.env_a.
Proof.
  apply (unrecoverable_env_id_raises Demo.the_host Demo.FetchAtExecDecorator "9" 0
           ["12/start/7"] false (Some UBF_TASK) (Demo.self_at "train" None false)
           "12" "start" "7").
  - reflexivity.
  - intros _. exists "12/start/7", []. split; reflexivity.
Defined.

(** ** What [runtime_init] does to [self] *)

Section RuntimeInitSelf.

Variable host : Host.
Variable cls : Methods.
Variable P : Self -> Prop.

Lemma keeps_self_ret {A} (a : A) : keeps_self P (ret a).
Proof. intros s Hs. exact Hs. Qed.

Lemma keeps_self_bind {A B} (m : M (Self * World) A) (k : A -> M (Self * World) B) :
  keeps_self P m -> (forall a, keeps_self P (k a)) -> keeps_self P (bind m k).
Proof.
  intros Hm Hk s Hs. rewrite bind_run. specialize (Hm s Hs).
  destruct (m s) as [[a|e] s']; simpl in *; [by apply Hk | exact Hm].
Qed.

Lemma keeps_self_on_snd {A} (m : M World A) : keeps_self P (on_snd m).
Proof. intros s Hs. unfold on_snd. by destruct (m (snd s)). Qed.

Lemma keeps_self_get : keeps_self P (on_fst get).
Proof. intros s Hs. exact Hs. Qed.

Lemma keeps_self_modify (f : Self -> Self) :
  (forall x, P x -> P (f x)) -> keeps_self P (on_fst (modify f)).
Proof. intros Hf s Hs. by apply Hf. Qed.

Lemma keeps_self_for_each {A} (l : list A) (body : A -> M (Self * World) unit) :
  (forall x, keeps_self P (body x)) -> keeps_self P (for_each l body).
Proof.
  intros Hbody. induction l as [|x l IH]; simpl.
  - apply keeps_self_ret.
  - apply keeps_self_bind; auto.
Qed.

(** A first step that keeps [P], then the rest. *)
Lemma post_bind_keeps {A B} (m : M (Self * World) A) (k : A -> M (Self * World) B)
    (s : Self * World) (Q : Res B -> Self * World -> Prop) :
  keeps_self P m -> P (fst s) ->
  (forall a s1, P (fst s1) -> post (k a) s1 Q) ->
  (forall e s1, P (fst s1) -> Q (Raise e) s1) ->
  post (bind m k) s Q.
Proof.
  intros Hm Hs Hk He. apply post_bind. unfold post. specialize (Hm s Hs).
  destruct (m s) as [[a|e] s1]; simpl in *; [by apply Hk | by apply He].
Qed.

Hypothesis P_home : forall h x, P x -> P (set_metaflow_home h x).
Hypothesis P_addl : forall l x, P x -> P (set_addl_paths l x).

Lemma keeps_self_link_metaflow (home : string) :
  keeps_self P (link_metaflow host home).
Proof.
  unfold link_metaflow.
  apply keeps_self_bind; [apply keeps_self_on_snd|intros _].
  apply keeps_self_bind; [apply keeps_self_on_snd|intros [|]].
  - apply keeps_self_on_snd.
  - apply keeps_self_bind; [apply keeps_self_get|intros ?].
    apply keeps_self_on_snd.
Qed.

Lemma keeps_self_link_extensions (home : string) :
  keeps_self P (link_extensions host home).
Proof.
  assert (Hloop : forall l : list string,
    keeps_self P
      (on_fst (modify (set_addl_paths (Some []))) ;;;
       for_each l (fun p =>
         temp_dir <- on_snd (OS.mkdtemp home) ;;
         on_snd (OS.symlink p (Py.path_join temp_dir [EXT_PKG])) ;;;
         on_fst (modify (fun self =>
           set_addl_paths
             (option_map (fun l => (l ++ [temp_dir])%list) (_addl_paths self))
             self))))).
  { intros l. apply keeps_self_bind; [apply keeps_self_modify; auto|intros _].
    apply keeps_self_for_each. intros p.
    apply keeps_self_bind; [apply keeps_self_on_snd|intros temp_dir].
    apply keeps_self_bind; [apply keeps_self_on_snd|intros _].
    apply keeps_self_modify. auto. }
  unfold link_extensions. destruct (ext_pkg_path host) as [m_path|].
  - destruct (list_of_set host m_path) as [|p [|q l]] eqn:Hl.
    + apply Hloop.
    + apply keeps_self_on_snd.
    + apply Hloop.
  - apply keeps_self_ret.
Qed.

End RuntimeInitSelf.

Lemma same_but_home_refl (a : Self) : same_but_home a a.
Proof. repeat split. Qed.

Lemma same_but_home_set_home (a : Self) (h : string) (x : Self) :
  same_but_home a x -> same_but_home a (set_metaflow_home h x).
Proof. intros H. exact H. Qed.

Lemma same_but_home_set_addl (a : Self) (l : option (list string)) (x : Self) :
  same_but_home a x -> same_but_home a (set_addl_paths l x).
Proof. intros H. exact H. Qed.

(** Up to its last part, [runtime_init] changes [self._metaflow_home] and
    [self._addl_paths] only; the last part then records the run for a
    fetch-at-exec step, if the hook gets that far. *)
Lemma runtime_init_self (host : Host) (cls : Methods) (run_id : string)
    (self : Self) (w : World) :
  post (runtime_init host cls run_id) (self, w) (fun r s' =>
    exists mid, same_but_home self mid /\
      match r with
      | Ok _ =>
          fst s' = if call_is_enabled cls mid None
                      && call_is_fetch_at_exec cls mid None
                   then set_env_for_fetch (record_run run_id (_step_name mid)) mid
                   else mid
      | Raise _ => fst s' = mid
      end).
Proof.
  pose proof (same_but_home_set_home self) as Hh.
  pose proof (same_but_home_set_addl self) as Ha.
  unfold runtime_init.
  apply (post_bind_keeps (same_but_home self));
    [apply keeps_self_on_snd | apply same_but_home_refl | | by eauto].
  intros home s1 H1.
  apply (post_bind_keeps (same_but_home self));
    [apply keeps_self_modify; auto | exact H1 | | by eauto].
  intros _ s2 H2.
  apply (post_bind_keeps (same_but_home self));
    [apply keeps_self_modify; auto | exact H2 | | by eauto].
  intros _ s3 H3.
  apply (post_bind_keeps (same_but_home self));
    [apply keeps_self_link_metaflow; auto | exact H3 | | by eauto].
  intros _ s4 H4.
  apply (post_bind_keeps (same_but_home self));
    [apply keeps_self_link_extensions; auto | exact H4 | | by eauto].
  intros _ s5 H5.
  apply (post_bind_keeps (same_but_home self));
    [apply keeps_self_on_snd | exact H5 | | by eauto].
  intros _ [mid w6] H6. simpl in H6.
  exists mid. split; [exact H6|].
  unfold post, save_for_fetch. rewrite bind_run. simpl.
  destruct (call_is_enabled cls mid None && call_is_fetch_at_exec cls mid None);
    reflexivity.
Qed.

(** C8. [_is_fetch_at_exec] returns [False] whatever [ubf_context] is; so
    with the class as this file defines it [runtime_init] always leaves
    [self._env_for_fetch] as it found it, and [runtime_task_created] on an
    enabled step is the [get_env_id_noconda] path: it sets [self._env_id]
    to the [EnvID] that call returns, or raises when it returns anything
    else, and never consults [resolve_fetch_at_exec_env]. *)
Theorem fetch_at_exec_unreachable (host : Host) (self : Self)
    (ubf_context : option string) (run_id task_id : string) (split_index : Z)
    (input_paths : list string) (is_cloned : bool) (w : World) :
  let D := CondaEnvInternalDecorator host in
  _is_fetch_at_exec self ubf_context = false
  /\ _env_for_fetch (fst (snd (runtime_init host D run_id (self, w))))
     = _env_for_fetch self
  /\ runtime_task_created host D task_id split_index input_paths is_cloned
                          ubf_context self
     = if _is_enabled host self ubf_context then
         match get_env_id_noconda (_env self) (_step_name self) with
         | inr t => (Ok tt, set_env_id (Some t) self)
         | inl t =>
             (Raise (InvalidEnvironmentException
                       ("Unexpected ID for the Conda environment for step '"
                          ++ _step_name self ++ "': '" ++ t ++ "'")),
              self)
         end
       else (Ok tt, self).
Proof.
  intros D. split; [reflexivity|]. split.
  - pose proof (runtime_init_self host D run_id self w) as H.
    unfold post in H. destruct H as (mid & Hmid & H).
    assert (Hs : fst (snd (runtime_init host D run_id (self, w))) = mid).
    { destruct (fst (runtime_init host D run_id (self, w))); [|exact H].
      rewrite H. simpl. by rewrite andb_false_r. }
    rewrite Hs. apply Hmid.
  - destruct (_is_enabled host self ubf_context) eqn:He.
    + by apply runtime_task_created_noconda.
    + by apply runtime_task_created_disabled.
Qed.
(** ** The variables of a fetch-at-exec step *)

Section FetchVars.

Variable host : Host.
Variable ds : TaskDataStore.

Lemma record_parameters_other (k : string) (params : list string)
    (vars : gmap string FetchVal) :
  k ∉ (init_key host <$> params) ->
  record_parameters host params ds vars !! k = vars !! k.
Proof.
  revert vars. induction params as [|x params IH]; intros vars Hk; [reflexivity|].
  rewrite fmap_cons in Hk. apply not_elem_of_cons in Hk as [Hx Hk].
  change (record_parameters host params ds (<[init_key host x:=FetchParam x ds]> vars) !! k
          = vars !! k).
  rewrite IH by exact Hk. by rewrite lookup_insert_ne.
Qed.

Lemma record_parameters_key (k : string) (params : list string)
    (vars : gmap string FetchVal) :
  k ∈ (init_key host <$> params) ->
  exists var, var ∈ params /\ init_key host var = k
              /\ record_parameters host params ds vars !! k = Some (FetchParam var ds).
Proof.
  revert vars. induction params as [|x params IH]; intros vars Hk.
  - by apply elem_of_nil in Hk.
  - change (exists var, var ∈ x :: params /\ init_key host var = k
              /\ record_parameters host params ds (<[init_key host x:=FetchParam x ds]> vars) !! k
                 = Some (FetchParam var ds)).
    destruct (decide (k ∈ (init_key host <$> params))) as [Hin|Hnot].
    + destruct (IH (<[init_key host x:=FetchParam x ds]> vars) Hin) as (var & ? & ? & ?).
      exists var. split; [by right|]. auto.
    + rewrite fmap_cons in Hk. apply elem_of_cons in Hk as [Hk|Hk]; [|done].
      exists x. split; [by left|]. split; [done|].
      rewrite record_parameters_other by exact Hnot.
      subst k. apply lookup_insert_eq.
Qed.

Lemma init_key_inj_on (params : list string) (x y : string) :
  NoDup ((init_key host <$> params)) -> x ∈ params -> y ∈ params ->
  init_key host x = init_key host y -> x = y.
Proof.
  induction params as [|z params IH]; intros Hnd Hx Hy Hxy.
  - by apply elem_of_nil in Hx.
  - rewrite fmap_cons in Hnd. apply NoDup_cons in Hnd as [Hz Hnd].
    apply elem_of_cons in Hx as [->|Hx]; apply elem_of_cons in Hy as [->|Hy];
      try done.
    + exfalso. apply Hz. rewrite Hxy. by apply list_elem_of_fmap_2.
    + exfalso. apply Hz. rewrite <- Hxy. by apply list_elem_of_fmap_2.
    + by apply IH.
Qed.

Lemma init_key_not_reserved (var k : string) :
  k ∈ ["METAFLOW_RUN_ID"; "METAFLOW_RUN_ID_BASE"; "METAFLOW_STEP_NAME";
       "METAFLOW_TASK_ID"] ->
  init_key host var <> k.
Proof.
  intros Hk Heq. unfold init_key in Heq. simpl in Heq.
  repeat (apply elem_of_cons in Hk as [->|Hk]; [discriminate|]).
  by apply elem_of_nil in Hk.
Qed.

Lemma reserved_not_recorded (k : string) (params : list string) :
  k ∈ ["METAFLOW_RUN_ID"; "METAFLOW_RUN_ID_BASE"; "METAFLOW_STEP_NAME";
       "METAFLOW_TASK_ID"] ->
  k ∉ (init_key host <$> params).
Proof.
  intros Hk Hin. apply list_elem_of_fmap in Hin as (var & -> & _).
  by apply (init_key_not_reserved var (init_key host var)).
Qed.

End FetchVars.

(** C5, as the code has it. On a fetch-at-exec step nothing fixes the
    environment ID before the task is created. [runtime_init], when it
    returns, has recorded the run id (twice) and the step name in
    [self._env_for_fetch]; [runtime_task_created] keeps them and adds the
    task id parsed from [input_paths[0]] and, for every flow parameter,
    an entry under the key [METAFLOW_INIT_] followed by the name of the
    parameter, upper-cased and with [-] turned into [_]: the deferred load
    from the datastore of the parent task of a parameter with that key.
    When no two flow parameters have the same key this is one entry per
    parameter, the load of that very parameter. Nothing else is added.
    [self._env_id] is what [resolve_fetch_at_exec_env] returns on the step
    name and exactly these variables, the hook returning normally just
    when that is an [EnvID]. *)
Theorem fetch_at_exec_resolution_deferred (host : Host) (cls : Methods)
    (run_id : string) (self : Self) (w : World) (self1 : Self) (w1 : World)
    (task_id : string) (split_index : Z) (path0 : string)
    (more_paths : list string) (is_cloned : bool) (ubf_context : option string)
    (parent_run parent_step parent_task : string) :
  enabled_step cls (_step_name self) None ->
  enabled_step cls (_step_name self) ubf_context ->
  fetch_at_exec_step cls (_step_name self) ->
  runtime_init host cls run_id (self, w) = (Ok tt, (self1, w1)) ->
  Py.split_sep path0 = [parent_run; parent_step; parent_task] ->
  let params := _get_parameters (_flow self) in
  let key := fun var =>
    "METAFLOW_INIT_" ++ Py.dash_to_underscore (str_upper host var) in
  let parent_ds :=
    get_task_datastore (_flow_datastore self) parent_run parent_step parent_task in
  let out :=
    runtime_task_created host cls task_id split_index (path0 :: more_paths)
                         is_cloned ubf_context self1 in
  let vars := _env_for_fetch (snd out) in
  _env_for_fetch self1 = record_run run_id (_step_name self) (_env_for_fetch self)
  /\ vars !! "METAFLOW_RUN_ID" = Some (FetchStr run_id)
  /\ vars !! "METAFLOW_RUN_ID_BASE" = Some (FetchStr run_id)
  /\ vars !! "METAFLOW_STEP_NAME" = Some (FetchStr (_step_name self))
  /\ vars !! "METAFLOW_TASK_ID" = Some (FetchStr parent_task)
  /\ (forall var, var ∈ params ->
        exists var', var' ∈ params /\ key var' = key var
                     /\ vars !! key var = Some (FetchParam var' parent_ds))
  /\ (NoDup (key <$> params) ->
      forall var, var ∈ params ->
                  vars !! key var = Some (FetchParam var parent_ds))
  /\ (forall k, k <> "METAFLOW_TASK_ID" -> k ∉ (key <$> params) ->
                vars !! k = _env_for_fetch self1 !! k)
  /\ _env_id (snd out)
     = resolve_fetch_at_exec_env (_env self) (_step_name self) vars
  /\ (fst out = Ok tt <-> is_Some (_env_id (snd out))).
Proof.
  intros Hen0 Hen Hfetch Hinit Hsplit params key parent_ds out vars.
  change key with (init_key host).
  pose proof (runtime_init_self host cls run_id self w) as H.
  unfold post in H. rewrite Hinit in H. simpl in H.
  destruct H as (mid & Hmid & H1).
  destruct Hmid as (Henv & Hflow & Hstep & Hfds & Hvars & _).
  rewrite (Hen0 mid Hstep), (Hfetch mid None Hstep) in H1. simpl in H1.
  assert (Hvars1 : _env_for_fetch self1
                   = record_run run_id (_step_name self) (_env_for_fetch self)).
  { rewrite H1. simpl. by rewrite Hstep, Hvars. }
  assert (Hstep1 : _step_name self1 = _step_name self) by (by rewrite H1).
  assert (Hflow1 : _flow self1 = _flow self) by (by rewrite H1).
  assert (Henv1 : _env self1 = _env self) by (by rewrite H1).
  assert (Hfds1 : _flow_datastore self1 = _flow_datastore self) by (by rewrite H1).
  assert (Hout : out
    = let vars' :=
        <["METAFLOW_TASK_ID" := FetchStr parent_task]>
          (record_parameters host params parent_ds (_env_for_fetch self1)) in
      let found := resolve_fetch_at_exec_env (_env self) (_step_name self) vars' in
      let self' := set_env_id found (set_env_for_fetch (fun _ => vars') self1) in
      match found with
      | Some _ => (Ok tt, self')
      | None =>
          (Raise (InvalidEnvironmentException
                    "Cannot find the environment ID for a fetch-at-exec step"),
           self')
      end).
  { unfold out.
    rewrite (runtime_task_created_fetch host cls task_id split_index path0
               more_paths is_cloned ubf_context self1 parent_run parent_step
               parent_task (Hen self1 Hstep1) (Hfetch self1 ubf_context Hstep1)
               Hsplit).
    unfold params, parent_ds. by rewrite Hflow1, Henv1, Hstep1, Hfds1. }
  assert (Hv : vars = <["METAFLOW_TASK_ID" := FetchStr parent_task]>
                        (record_parameters host params parent_ds
                                           (_env_for_fetch self1))).
  { unfold vars. rewrite Hout. simpl.
    by destruct (resolve_fetch_at_exec_env _ _ _). }
  assert (Hother : forall k, k <> "METAFLOW_TASK_ID" ->
                             k ∉ (init_key host <$> params) ->
                             vars !! k = _env_for_fetch self1 !! k).
  { intros k Hk Hnot. rewrite Hv, lookup_insert_ne by congruence.
    by apply record_parameters_other. }
  assert (Hkept : forall k, k ∈ ["METAFLOW_RUN_ID"; "METAFLOW_RUN_ID_BASE";
                                 "METAFLOW_STEP_NAME"] ->
                  vars !! k = record_run run_id (_step_name self)
                                         (_env_for_fetch self) !! k).
  { intros k Hk. rewrite <- Hvars1. apply Hother.
    - intros ->. repeat (apply elem_of_cons in Hk as [Hk|Hk]; [discriminate|]).
      by apply elem_of_nil in Hk.
    - apply reserved_not_recorded.
      repeat (apply elem_of_cons in Hk as [->|Hk]; [set_solver|]).
      by apply elem_of_nil in Hk. }
  assert (Hparam : forall var, var ∈ params ->
            exists var', var' ∈ params /\ init_key host var' = init_key host var
              /\ vars !! init_key host var = Some (FetchParam var' parent_ds)).
  { intros var Hin.
    destruct (record_parameters_key host parent_ds (init_key host var) params
                (_env_for_fetch self1)) as (var' & Hin' & Hk' & Hl).
    { by apply list_elem_of_fmap_2. }
    exists var'. split; [done|]. split; [done|].
    rewrite Hv, lookup_insert_ne; [exact Hl|].
    intros Heq. symmetry in Heq. revert Heq.
    apply init_key_not_reserved. set_solver. }
  split; [exact Hvars1|].
  split; [rewrite Hkept by set_solver; unfold record_run; by simplify_map_eq|].
  split; [rewrite Hkept by set_solver; unfold record_run; by simplify_map_eq|].
  split; [rewrite Hkept by set_solver; unfold record_run; by simplify_map_eq|].
  split; [rewrite Hv; apply lookup_insert_eq|].
  split; [exact Hparam|].
  split.
  { intros Hnd var Hin. destruct (Hparam var Hin) as (var' & Hin' & Hk & Hl).
    assert (var' = var) as -> by (by apply (init_key_inj_on host params)).
    exact Hl. }
  split; [exact Hother|].
  rewrite Hv. rewrite Hout. simpl.
  destruct (resolve_fetch_at_exec_env _ _ _) eqn:Hr; simpl; (split; [done|]).
  - split; [eauto | reflexivity].
  - split; [discriminate | by intros [? ?]].
Qed.

Lemma fetch_at_exec_resolution_deferred_witness :
  let self := Demo.self_at "train" None false in
  let self1 := fst Demo.after_init in
  let params := _get_parameters (_flow self) in
  let key := fun var =>
    "METAFLOW_INIT_" ++ Py.dash_to_underscore (str_upper Demo.the_host var) in
  let parent_ds := get_task_datastore (_flow_datastore self) "12" "start" "7" in
  let out :=
    runtime_task_created Demo.the_host Demo.FetchAtExecDecorator "9" 0
                         ["12/start/7"] false (Some UBF_TASK) self1 in
  let vars := _env_for_fetch (snd out) in
  _env_for_fetch self1 = record_run "12" (_step_name self) (_env_for_fetch self)
  /\ vars !! "METAFLOW_RUN_ID" = Some (FetchStr "12")
  /\ vars !! "METAFLOW_RUN_ID_BASE" = Some (FetchStr "12")
  /\ vars !! "METAFLOW_STEP_NAME" = Some (FetchStr (_step_name self))
  /\ vars !! "METAFLOW_TASK_ID" = Some (FetchStr "7")
  /\ (forall var, var ∈ params ->
        exists var', var' ∈ params /\ key var' = key var
                     /\ vars !! key var = Some (FetchParam var' parent_ds))
  /\ (NoDup (key <$> params) ->
      forall var, var ∈ params ->
                  vars !! key var = Some (FetchParam var parent_ds))
  /\ (forall k, k <> "METAFLOW_TASK_ID" -> k ∉ (key <$> params) ->
                vars !! k = _env_for_fetch self1 !! k)
  /\ _env_id (snd out)
     = resolve_fetch_at_exec_env (_env self) (_step_name self) vars
  /\ (fst out = Ok tt <-> is_Some (_env_id (snd out))).
Proof.
  apply (fetch_at_exec_resolution_deferred Demo.the_host Demo.FetchAtExecDecorator
           "12" (Demo.self_at "train" None false) Demo.the_world
           (fst Demo.after_init) (snd Demo.after_init)
           "9" 0 "12/start/7" [] false (Some UBF_TASK) "12" "start" "7").
  - intros s Hs. simpl in *. unfold _is_enabled. simpl. rewrite Hs. reflexivity.
  - intros s Hs. simpl in *. unfold _is_enabled. simpl. rewrite Hs. reflexivity.
  - intros s u Hs. reflexivity.
  - vm_compute. reflexivity.
  - reflexivity.
Defined.

(** C5, as stated, fails: two flow parameters whose names differ in case
    only are given the same key, so after the loop there is one
    [METAFLOW_INIT_] entry for the two of them, and it holds the load of
    the later one, [Alpha]. *)
Lemma parameters_share_init_entry :
  let self1 :=
    fst (snd (runtime_init Demo.the_host Demo.FetchAtExecDecorator "12"
                           (Demo.twin_self, Demo.the_world))) in
  let parent_ds := get_task_datastore (_flow_datastore self1) "12" "start" "7" in
  let out :=
    runtime_task_created Demo.the_host Demo.FetchAtExecDecorator "9" 0
                         ["12/start/7"] false (Some UBF_TASK) self1 in
  let vars := _env_for_fetch (snd out) in
  _get_parameters (_flow self1) = ["alpha"; "Alpha"]
  /\ fst out = Ok tt
  /\ init_key Demo.the_host "alpha" = "METAFLOW_INIT_ALPHA"
  /\ init_key Demo.the_host "Alpha" = "METAFLOW_INIT_ALPHA"
  /\ vars !! "METAFLOW_INIT_ALPHA" = Some (FetchParam "Alpha" parent_ds)
  /\ filter (fun kv => Py.startswith "METAFLOW_INIT_" (fst kv) = true) vars
     = {[ "METAFLOW_INIT_ALPHA" := FetchParam "Alpha" parent_ds ]}.
Proof. vm_compute. repeat split. Qed.

(** ** Provisioning in [runtime_step_cli] *)

(** The end of the hook: the library path on Linux, then the entry
    point. *)
Ltac finish_cli :=
  match goal with
  | Hentry : entrypoint _ = _ :: _ |- _ =>
      destruct (Py.startswith "linux" (arch_id _)); simpl;
      [ destruct (os_environ _ !! "LD_LIBRARY_PATH") as [old|]; simpl;
        [ destruct (Py.truthy old); simpl | ] | ];
      rewrite Hentry; simpl; repeat split; by simplify_map_eq
  end.

(** C1, as the code has it. For a worker task (not a control task, not
    remote) of an enabled step whose environment ID has been set, with the
    metaflow home of [runtime_init] in place and a non-empty entry point:
    if [conda.created_environment] reports an environment it is reused;
    otherwise [conda.environment] is asked for the resolved environment
    and, when there is one, it is created by [conda.create_for_step]. In
    these two cases the hook returns, [cli_args.entrypoint[0]] is the
    [bin/python] of that environment and [PYTHONPATH] is the metaflow
    home, after the additional paths if any. When [conda.environment] has
    nothing, the hook raises [InvalidEnvironmentException], nothing is
    created, and the entry point and [PYTHONPATH] stay as they were. *)
Theorem worker_task_provisioned (host : Host) (self : Self)
    (retry_count max_retries : Z) (ubf_context : option string)
    (cli : CLIArgs) (w : World)
    (env_id : EnvID) (home : string) (python0 : string) (args : list string) :
  _is_enabled host self ubf_context = true ->
  _is_remote self = false ->
  _env_id self = Some env_id ->
  _metaflow_home self = Some home ->
  entrypoint cli = python0 :: args ->
  let c := conda (_env self) in
  let calls := conda_calls w in
  let python_path :=
    match _addl_paths self with
    | Some paths => Py.join ":" paths ++ ":" ++ home
    | None => home
    end in
  let out :=
    runtime_step_cli host (CondaEnvInternalDecorator host) self retry_count
                     max_retries ubf_context (cli, w) in
  let cli' := fst (snd out) in
  let w' := snd (snd out) in
  match created_environment c calls env_id with
  | Some info =>
      fst out = Ok tt
      /\ entrypoint cli' = Py.path_join (snd info) ["bin"; "python"] :: args
      /\ env cli' !! "PYTHONPATH" = Some python_path
      /\ conda_calls w' = CallCreatedEnvironment env_id :: calls
  | None =>
      let calls1 := CallCreatedEnvironment env_id :: calls in
      match environment c calls1 env_id with
      | Some resolved_env =>
          let calls2 := CallEnvironment env_id :: calls1 in
          fst out = Ok tt
          /\ entrypoint cli'
             = Py.path_join (create_for_step c calls2 (_step_name self) resolved_env)
                            ["bin"; "python"] :: args
          /\ env cli' !! "PYTHONPATH" = Some python_path
          /\ conda_calls w'
             = CallCreateForStep (_step_name self) resolved_env :: calls2
      | None =>
          fst out = Raise (InvalidEnvironmentException "Cannot create environment")
          /\ entrypoint cli' = entrypoint cli
          /\ env cli' !! "PYTHONPATH" = env cli !! "PYTHONPATH"
          /\ conda_calls w' = CallEnvironment env_id :: calls1
      end
  end.
Proof.
  intros Hen Hremote Hid Hhome Hentry c calls python_path out cli' w'.
  assert (Htask : _is_enabled host self (Some UBF_TASK) = true).
  { apply is_enabled_worker. apply is_enabled_worker in Hen as [_ ?]. done. }
  subst cli' w' out python_path c calls. unfold runtime_step_cli. simpl.
  rewrite Htask, Hen, Hremote, Hid, Hhome. simpl.
  unfold conda_call, echo, set_entrypoint0, OS.environ_get. run_hook.
  destruct (_addl_paths self) as [paths|];
    destruct (created_environment _ (conda_calls w) env_id) as [info|]; simpl;
    try finish_cli;
    (destruct (environment _ (CallCreatedEnvironment env_id :: conda_calls w) env_id);
     simpl; [finish_cli | repeat split; by rewrite lookup_insert_ne]).
Qed.

Lemma worker_task_provisioned_witness :
  let out :=
    runtime_step_cli Demo.the_host (CondaEnvInternalDecorator Demo.the_host)
      (Demo.self_at "train" (Some Demo.env_b) false) 0 3 (Some UBF_TASK)
      (Demo.the_cli, Demo.the_world) in
  fst out = Ok tt
  /\ entrypoint (fst (snd out)) = ["/opt/conda/envs/train_77d0/bin/python"; "flow.py"]
  /\ env (fst (snd out)) !! "PYTHONPATH" = Some "/tmp/tmpq1w2e3r4"
  /\ conda_calls (snd (snd out))
     = [CallCreateForStep "train" (mkResolved Demo.env_b);
        CallEnvironment Demo.env_b; CallCreatedEnvironment Demo.env_b].
Proof.
  apply (worker_task_provisioned Demo.the_host
           (Demo.self_at "train" (Some Demo.env_b) false) 0 3 (Some UBF_TASK)
           Demo.the_cli Demo.the_world Demo.env_b "/tmp/tmpq1w2e3r4"
           "/usr/bin/python3" ["flow.py"]); reflexivity.
Defined.

(** C1, as stated, fails: a worker task of an enabled, local step whose
    environment the [Conda] object has neither built nor resolved. The hook
    raises; no environment is created and the entry point is not set. *)
Lemma worker_task_not_always_provisioned :
  let self := Demo.self_at "start" (Some Demo.env_c) false in
  let out :=
    runtime_step_cli Demo.the_host (CondaEnvInternalDecorator Demo.the_host)
      self 0 3 (Some UBF_TASK) (Demo.the_cli, Demo.the_world) in
  _is_enabled Demo.the_host self (Some UBF_TASK) = true
  /\ _is_remote self = false
  /\ created_environment Demo.the_conda [] Demo.env_c = None
  /\ fst out = Raise (InvalidEnvironmentException "Cannot create environment")
  /\ entrypoint (fst (snd out)) = ["/usr/bin/python3"; "flow.py"]
  /\ env (fst (snd out)) !! "PYTHONPATH" = None
  /\ conda_calls (snd (snd out))
     = [CallEnvironment Demo.env_c; CallCreatedEnvironment Demo.env_c].
Proof. vm_compute. repeat split. Qed.

(** ** Paths *)

Section Paths.

Lemma string_length_app (a b : string) :
  String.length (a ++ b) = String.length a + String.length b.
Proof. induction a as [|c a IH]; simpl; [reflexivity | by rewrite IH]. Qed.

Lemma cut_plain (c : string) :
  Py.has_sep c = false -> Py.cut_after_last_sep c = EmptyString.
Proof.
  induction c as [|a c IH]; [reflexivity|]. simpl.
  intros H. apply orb_false_elim in H as [Ha Hc]. by rewrite IH, Ha.
Qed.

Lemma cut_child (h c : string) :
  Py.has_sep c = false -> Py.cut_after_last_sep (child h c) = h ++ "/".
Proof.
  intros Hc. unfold child. induction h as [|a h IH]; simpl.
  - by rewrite cut_plain.
  - simpl in IH. rewrite IH. by destruct h.
Qed.

Lemma rstrip_dir (h : string) :
  Py.endswith_sep h = false -> Py.rstrip_sep (h ++ "/") = h.
Proof.
  induction h as [|a h IH]; [reflexivity|]. intros Hh.
  destruct h as [|b h].
  - simpl in *. by rewrite Hh.
  - change (String a (String b h) ++ "/") with (String a (String b h ++ "/")).
    change (Py.rstrip_sep (String a (String b h ++ "/")))
      with (match Py.rstrip_sep (String b h ++ "/") with
            | EmptyString =>
                if Py.is_sep a then EmptyString else String a EmptyString
            | r' => String a r'
            end).
    by rewrite IH.
Qed.

Lemma all_sep_dir (h : string) :
  dir_path h -> Py.all_sep (h ++ "/") = false.
Proof.
  intros [Hne Hend]. induction h as [|a h IH]; [done|].
  destruct h as [|b h].
  - simpl in *. by rewrite Hend.
  - change (Py.all_sep (String a (String b h ++ "/")) = false). simpl.
    apply andb_false_intro2. by apply IH.
Qed.

Lemma dirname_child (h c : string) :
  dir_path h -> Py.has_sep c = false -> Py.dirname (child h c) = h.
Proof.
  intros Hh Hc. unfold Py.dirname. rewrite cut_child by exact Hc.
  rewrite all_sep_dir by exact Hh.
  destruct Hh as [Hne Hend]. rewrite rstrip_dir by exact Hend.
  by destruct h.
Qed.

Lemma child_inj (h c c' : string) : child h c = child h c' -> c = c'.
Proof.
  unfold child. induction h as [|a h IH]; simpl; intros H; by simplify_eq.
Qed.

Lemma child_ne_self (h c : string) : child h c <> h.
Proof.
  unfold child. intros H. apply (f_equal String.length) in H.
  rewrite !string_length_app in H. simpl in H. lia.
Qed.

Lemma path_join_child (h c : string) :
  dir_path h -> Py.startswith "/" c = false -> Py.path_join h [c] = child h c.
Proof.
  intros [Hne Hend] Hc. unfold Py.path_join, Py.path_join2. simpl.
  rewrite Hc, Hend. by destruct h.
Qed.

Lemma endswith_sep_app (h c : string) :
  c <> EmptyString -> Py.endswith_sep (h ++ c) = Py.endswith_sep c.
Proof.
  intros Hc. induction h as [|a h IH]; [reflexivity|].
  simpl. rewrite IH. destruct (h ++ c) eqn:E; [|done].
  destruct h; [done|discriminate].
Qed.

Lemma endswith_sep_plain (c : string) :
  Py.has_sep c = false -> Py.endswith_sep c = false.
Proof.
  induction c as [|a c IH]; [reflexivity|]. simpl. intros H.
  apply orb_false_elim in H as [Ha Hc]. destruct c; [exact Ha|by apply IH].
Qed.

Lemma dir_path_child (h c : string) :
  Py.has_sep c = false -> c <> EmptyString -> dir_path (child h c).
Proof.
  intros Hc Hne. split.
  - unfold child. by destruct h.
  - unfold child. rewrite endswith_sep_app by done.
    change ("/" ++ c) with (String Py.sep c). simpl.
    destruct c; [done|]. by apply endswith_sep_plain.
Qed.

Lemma under_self (h : string) : OS.under h h = true.
Proof. unfold OS.under. destruct (String.length h); simpl; by rewrite String.eqb_refl. Qed.

Lemma is_under_self (fuel : nat) (h : string) : OS.is_under fuel h h = true.
Proof. destruct fuel; simpl; by rewrite String.eqb_refl. Qed.

Lemma under_child (h c : string) :
  dir_path h -> Py.has_sep c = false -> OS.under h (child h c) = true.
Proof.
  intros Hh Hc. unfold OS.under.
  destruct (String.length (child h c)) as [|fuel] eqn:Hlen.
  - unfold child in Hlen. rewrite string_length_app in Hlen. simpl in Hlen. lia.
  - simpl. rewrite dirname_child by done.
    destruct (String.eqb_spec h (child h c)) as [Heq|_].
    + symmetry in Heq. by apply child_ne_self in Heq.
    + rewrite is_under_self. apply orb_true_r.
Qed.

Lemma under_grandchild (h c d : string) :
  dir_path h -> Py.has_sep c = false -> c <> EmptyString -> Py.has_sep d = false ->
  OS.under h (child (child h c) d) = true.
Proof.
  intros Hh Hc Hne Hd. unfold OS.under.
  pose proof (dir_path_child h c Hc Hne) as Hhc.
  destruct (String.length (child (child h c) d)) as [|[|fuel]] eqn:Hlen.
  - unfold child in Hlen. rewrite !string_length_app in Hlen. simpl in Hlen. lia.
  - unfold child in Hlen. rewrite !string_length_app in Hlen. simpl in Hlen. lia.
  - cbn [OS.is_under]. rewrite !dirname_child by done.
    destruct (String.eqb_spec (child h c) (child (child h c) d)) as [Heq|_].
    { symmetry in Heq. by apply child_ne_self in Heq. }
    destruct (String.eqb_spec h (child h c)) as [Heq|_].
    { symmetry in Heq. by apply child_ne_self in Heq. }
    rewrite is_under_self. by rewrite !orb_true_r.
Qed.

End Paths.

(** ** The file system *)

Section FileSystem.

Lemma fs_wf_insert (f : gmap string Node) (k : string) (n : Node) :
  fs_wf f -> f !! k = None -> f !! Py.dirname k = Some Dir ->
  fs_wf (<[k := n]> f).
Proof.
  intros Hwf Hk Hparent p m Hp Hne.
  destruct (decide (p = k)) as [->|Hpk].
  - rewrite lookup_insert_ne by done. exact Hparent.
  - rewrite lookup_insert_ne in Hp by done.
    pose proof (Hwf p m Hp Hne) as Hd.
    rewrite lookup_insert_ne; [exact Hd|]. intros Heq. congruence.
Qed.

(** Nothing lies in a directory that is not there. *)
Lemma fresh_child (f : gmap string Node) (h k : string) :
  fs_wf f -> f !! h = None -> Py.dirname k = h -> k <> h -> f !! k = None.
Proof.
  intros Hwf Hh Hd Hne. destruct (f !! k) as [n|] eqn:Hk; [|reflexivity].
  assert (f !! Py.dirname k = Some Dir) by (apply (Hwf k n Hk); congruence).
  congruence.
Qed.



Lemma create_fresh (p : string) (n : Node) (w : World) :
  fs w !! p = None -> fs w !! Py.dirname p = Some Dir ->
  OS.create p n w = (Ok tt, set_fs (insert p n) w).
Proof. intros Hp Hd. unfold OS.create, OS.parent_error. by rewrite Hp, Hd. Qed.

Lemma create_exists (p : string) (n : Node) (w : World) :
  is_Some (fs w !! p) -> OS.create p n w = (Raise (FileExistsError p), w).
Proof. intros [m Hm]. unfold OS.create. by rewrite Hm. Qed.

Lemma follow_missing (fuel : nat) (f : gmap string Node) (p : string) :
  f !! p = None -> OS.follow fuel f p = Some p.
Proof. intros Hp. destruct fuel; simpl; by rewrite Hp. Qed.

Lemma write_text_fresh (p content : string) (w : World) :
  fs w !! p = None -> fs w !! Py.dirname p = Some Dir ->
  OS.write_text p content w = (Ok tt, set_fs (insert p (File content)) w).
Proof.
  intros Hp Hd. unfold OS.write_text, OS.parent_error.
  rewrite follow_missing by exact Hp. by rewrite Hp, Hd.
Qed.

(** [mkdtemp] passes over the names that are taken and makes a directory
    of the first that is free. *)
Lemma mkdtemp_from_fresh (dir : string) (taken : list string) (n : string)
    (rest : list string) (w : World) :
  Forall (fun m => is_Some (fs w !! Py.path_join dir ["tmp" ++ m])) taken ->
  fs w !! Py.path_join dir ["tmp" ++ n] = None ->
  fs w !! Py.dirname (Py.path_join dir ["tmp" ++ n]) = Some Dir ->
  OS.mkdtemp_from dir (taken ++ n :: rest)%list w
  = (Ok (Py.path_join dir ["tmp" ++ n]),
     set_fs (insert (Py.path_join dir ["tmp" ++ n]) Dir)
            (set_candidate_names rest w)).
Proof.
  intros Htaken Hn Hd. revert w Htaken Hn Hd.
  induction taken as [|m taken IH]; intros w Htaken Hn Hd.
  - cbn [app OS.mkdtemp_from]. unfold OS.mkdir.
    rewrite create_fresh by assumption. reflexivity.
  - apply Forall_cons in Htaken as [Hm Htaken].
    cbn [app OS.mkdtemp_from]. unfold OS.mkdir.
    rewrite create_exists by exact Hm.
    rewrite (IH (set_candidate_names (taken ++ n :: rest)%list w)) by assumption.
    reflexivity.
Qed.

Lemma mkdtemp_fresh (dir : string) (taken : list string) (n : string)
    (rest : list string) (w : World) :
  candidate_names w = (taken ++ n :: rest)%list ->
  Forall (fun m => is_Some (fs w !! Py.path_join dir ["tmp" ++ m])) taken ->
  fs w !! Py.path_join dir ["tmp" ++ n] = None ->
  fs w !! Py.dirname (Py.path_join dir ["tmp" ++ n]) = Some Dir ->
  OS.mkdtemp dir w
  = (Ok (Py.path_join dir ["tmp" ++ n]),
     set_fs (insert (Py.path_join dir ["tmp" ++ n]) Dir)
            (set_candidate_names rest w)).
Proof.
  intros Hnames. unfold OS.mkdtemp. rewrite Hnames. apply mkdtemp_from_fresh.
Qed.

Lemma rmtree_dir (p : string) (w : World) :
  fs w !! p = Some Dir ->
  OS.rmtree p w
  = (Ok tt, set_fs (filter (fun kv => OS.under p (fst kv) = false)) w).
Proof. intros Hp. unfold OS.rmtree. by rewrite Hp. Qed.

End FileSystem.

(** ** The parts of [runtime_init] *)

Section InitParts.

Variable host : Host.
Variable fs0 : gmap string Node.
Variable home : string.
Hypothesis home_dir : dir_path home.

Lemma child_length (h c : string) :
  String.length (child h c) = String.length h + 1 + String.length c.
Proof. unfold child. rewrite !string_length_app. simpl. lia. Qed.

Lemma has_sep_app (a b : string) :
  Py.has_sep (a ++ b) = Py.has_sep a || Py.has_sep b.
Proof.
  induction a as [|c a IH]; simpl; [reflexivity|]. by rewrite IH, orb_assoc.
Qed.

Lemma startswith_sep_plain (s : string) :
  Py.has_sep s = false -> Py.startswith "/" s = false.
Proof.
  destruct s as [|c s]; [reflexivity|]. cbn [Py.has_sep]. intros H.
  apply orb_false_elim in H as [Hc _]. unfold Py.startswith.
  change (String.prefix "/" (String c s))
    with (if Ascii.ascii_dec "/" c then String.prefix EmptyString s else false).
  destruct (Ascii.ascii_dec "/" c) as [<-|]; [by vm_compute in Hc | reflexivity].
Qed.

Lemma path_join_plain (h c : string) :
  dir_path h -> Py.has_sep c = false -> Py.path_join h [c] = child h c.
Proof. intros Hh Hc. apply path_join_child; [exact Hh|by apply startswith_sep_plain]. Qed.

(** Adding an entry below [home] where nothing was. *)
Lemma home_tree_insert (f : gmap string Node) (k : string) (n : Node) :
  home_tree fs0 home f -> OS.under home k = true -> k <> home ->
  home_tree fs0 home (<[k := n]> f).
Proof.
  intros [Hframe Hhome] Hk Hne. split.
  - intros p Hp. rewrite lookup_insert_ne by congruence. by apply Hframe.
  - by rewrite lookup_insert_ne.
Qed.

Lemma linked_insert (link info : Node) (f : gmap string Node) (k : string) (n : Node) :
  linked home link info f -> k <> child home "metaflow" -> k <> child home "INFO" ->
  linked home link info (<[k := n]> f).
Proof. intros [H1 H2] ? ?. split; by rewrite lookup_insert_ne. Qed.

Lemma link_metaflow_run (self : Self) (w : World) :
  fs w !! home = Some Dir ->
  fs w !! child home "metaflow" = None ->
  fs w !! child home "INFO" = None ->
  let path_to_info := Py.path_join (get_metaflow_root host) ["INFO"] in
  let link := Symlink (Py.path_join (get_metaflow_root host) ["metaflow"]) in
  let f1 := <[child home "metaflow" := link]> (fs w) in
  let info :=
    if OS.isfile (getcwd host) f1 path_to_info then Symlink path_to_info
    else File (get_environment_info_json (_env self)) in
  link_metaflow host home (self, w)
  = (Ok tt, (self, set_fs (fun _ => <[child home "INFO" := info]> f1) w)).
Proof.
  intros Hhome Hm Hi path_to_info link f1 info.
  unfold link_metaflow. rewrite !(path_join_plain home) by done.
  rewrite bind_run. unfold on_snd at 1, OS.symlink. cbn [fst snd].
  rewrite create_fresh by (by rewrite ?dirname_child).
  rewrite bind_run. unfold on_snd at 1, OS.path_isfile. cbn [fst snd].
  assert (Hi1 : f1 !! child home "INFO" = None).
  { unfold f1. rewrite lookup_insert_ne; [exact Hi|].
    intros Heq%child_inj. discriminate. }
  assert (Hd1 : f1 !! home = Some Dir).
  { unfold f1. rewrite lookup_insert_ne; [exact Hhome|]. apply child_ne_self. }
  fold link. change (fs (set_fs (insert (child home "metaflow") link) w)) with f1.
  subst info. fold path_to_info.
  destruct (OS.isfile (getcwd host) f1 path_to_info).
  - unfold on_snd, OS.symlink. cbn [fst snd].
    rewrite create_fresh by (simpl; by rewrite ?dirname_child).
    destruct w; reflexivity.
  - rewrite bind_run. unfold on_fst at 1, get. cbn [fst snd].
    unfold on_snd. cbn [fst snd].
    rewrite write_text_fresh by (simpl; by rewrite ?dirname_child).
    destruct w; reflexivity.
Qed.

Lemma py_not_metaflow (m : string) : m ++ ".py" <> "metaflow".
Proof.
  intros H.
  assert (Hlen : String.length m = 5).
  { apply (f_equal String.length) in H. rewrite string_length_app in H.
    simpl in H. lia. }
  do 6 (destruct m as [|? m]; simpl in Hlen; try lia).
  cbv [String.append] in H. congruence.
Qed.

Lemma py_not_INFO (m : string) : m ++ ".py" <> "INFO".
Proof.
  intros H.
  assert (Hlen : String.length m = 1).
  { apply (f_equal String.length) in H. rewrite string_length_app in H.
    simpl in H. lia. }
  do 2 (destruct m as [|? m]; simpl in Hlen; try lia).
  cbv [String.append] in H. congruence.
Qed.

(** The files of [generate_trampolines] land in [home], next to the two
    links. *)
Lemma trampolines_run (link info : Node) (l : list (string * string)) (w : World) :
  Forall (fun mc => Py.has_sep (fst mc) = false) l ->
  home_tree fs0 home (fs w) -> linked home link info (fs w) ->
  exists w',
    for_each l (fun mc =>
      modify (set_fs (insert (Py.path_join home [fst mc ++ ".py"])
                             (File (snd mc))))) w
    = (Ok tt, w')
    /\ home_tree fs0 home (fs w') /\ linked home link info (fs w').
Proof.
  intros Hl. revert w. induction Hl as [|[m content] l Hm _ IH]; intros w Htree Hlinked.
  - exists w. by split.
  - simpl in Hm. cbn [for_each]. rewrite bind_run. unfold modify at 1.
    assert (Hplain : Py.has_sep (m ++ ".py") = false).
    { rewrite has_sep_app, Hm. reflexivity. }
    cbn [fst snd]. rewrite path_join_plain by done.
    apply IH; simpl.
    + apply home_tree_insert; [exact Htree|by apply under_child|apply child_ne_self].
    + apply linked_insert; [exact Hlinked| |].
      * intros Heq%child_inj. by apply py_not_metaflow in Heq.
      * intros Heq%child_inj. by apply py_not_INFO in Heq.
Qed.



End InitParts.

(** ** [runtime_init] and [runtime_finished] *)

Lemma rmtree_lookup (f : gmap string Node) (h p : string) :
  filter (fun kv : string * Node => OS.under h (fst kv) = false) f !! p
  = if OS.under h p then None else f !! p.
Proof.
  destruct (OS.under h p) eqn:Hu.
  - apply map_lookup_filter_None. right. intros n _. simpl. congruence.
  - destruct (f !! p) as [n|] eqn:Hp.
    + apply map_lookup_filter_Some. by split.
    + apply map_lookup_filter_None. by left.
Qed.


Lemma tmp_home_dir (n : string) :
  Py.has_sep n = false -> dir_path ("/tmp/tmp" ++ n).
Proof.
  intros Hn. apply (dir_path_child "/tmp" ("tmp" ++ n)); [exact Hn|discriminate].
Qed.

Lemma tmp_home_parent (n : string) :
  Py.has_sep n = false -> Py.dirname ("/tmp/tmp" ++ n) = "/tmp".
Proof.
  intros Hn. apply (dirname_child "/tmp" ("tmp" ++ n)); [by split|exact Hn].
Qed.


Lemma demo_fs_wf : fs_wf Demo.the_fs.
Proof.
  intros p n Hp Hne. unfold Demo.the_fs in Hp.
  apply elem_of_list_to_map_2 in Hp.
  repeat (apply elem_of_cons in Hp as [Hp|Hp];
          [injection Hp as -> ->; first [by vm_compute in Hne | by vm_compute]|]).
  by apply elem_of_nil in Hp.
Qed.



(** * Further properties of the hooks *)

(** ** [runtime_step_cli] at its edges *)

(** X1. On a step for which environments are not enabled, the three
    guarded hooks of the class do nothing in any context: they return with
    [self], [cli_args] and the world as they were. *)
Theorem disabled_step_hooks_do_nothing (host : Host) (self : Self)
    (task_id step_name run_id : string) (split_index retry_count max_retries : Z)
    (input_paths : list string) (is_cloned : bool) (ubf_context : option string)
    (cli : CLIArgs) (w : World) :
  enabled_for_step host (_step_name self) = false ->
  let D := CondaEnvInternalDecorator host in
  runtime_task_created host D task_id split_index input_paths is_cloned ubf_context self
  = (Ok tt, self)
  /\ runtime_step_cli host D self retry_count max_retries ubf_context (cli, w)
     = (Ok tt, (cli, w))
  /\ task_pre_step host D self step_name run_id task_id retry_count max_retries
                   ubf_context w
     = (Ok tt, w).
Proof.
  intros Hoff D.
  assert (Hany : forall u, _is_enabled host self u = false).
  { intros u. unfold _is_enabled. rewrite Hoff. by case_bool_decide. }
  split; [|split].
  - apply runtime_task_created_disabled. apply Hany.
  - apply runtime_step_cli_disabled. simpl. by rewrite Hany.
  - unfold task_pre_step. simpl. by rewrite Hany.
Qed.

Lemma disabled_step_hooks_do_nothing_witness :
  let D := CondaEnvInternalDecorator Demo.the_host in
  let self := Demo.self_at "end" None false in
  runtime_task_created Demo.the_host D "9" 0 ["12/train/8"] false None self = (Ok tt, self)
  /\ runtime_step_cli Demo.the_host D self 0 3 None (Demo.the_cli, Demo.the_world)
     = (Ok tt, (Demo.the_cli, Demo.the_world))
  /\ task_pre_step Demo.the_host D self "end" "12" "9" 0 3 None Demo.the_world
     = (Ok tt, Demo.the_world).
Proof.
  apply (disabled_step_hooks_do_nothing Demo.the_host (Demo.self_at "end" None false)
           "9" "end" "12" 0 0 3 ["12/train/8"] false None Demo.the_cli
           Demo.the_world).
  reflexivity.
Defined.

(** X2. A local worker task of an enabled step that reaches
    [runtime_step_cli] with [self._env_id] still [None] fails the
    assertion: the hook raises [AssertionError] after it has exported
    [json.dumps(None)], and before any call on the [Conda] object. *)
Theorem unset_env_id_fails_assertion (host : Host) (cls : Methods) (self : Self)
    (retry_count max_retries : Z) (ubf_context : option string)
    (cli : CLIArgs) (w : World) :
  call_is_enabled cls self (Some UBF_TASK) = true ->
  call_is_enabled cls self ubf_context = true ->
  _is_remote self = false ->
  _env_id self = None ->
  runtime_step_cli host cls self retry_count max_retries ubf_context (cli, w)
  = (Raise AssertionError,
     (set_cli_env "_METAFLOW_CONDA_ENV" (json_dumps host None) cli, w)).
Proof.
  intros Htask Hen Hlocal Hid. unfold runtime_step_cli.
  rewrite Htask, Hen, Hlocal, Hid. reflexivity.
Qed.

Lemma unset_env_id_fails_assertion_witness :
  runtime_step_cli Demo.the_host (CondaEnvInternalDecorator Demo.the_host)
    (Demo.self_at "train" None false) 0 3 None (Demo.the_cli, Demo.the_world)
  = (Raise AssertionError,
     (set_cli_env "_METAFLOW_CONDA_ENV" (json_dumps Demo.the_host None) Demo.the_cli,
      Demo.the_world)).
Proof.
  apply (unset_env_id_fails_assertion Demo.the_host
           (CondaEnvInternalDecorator Demo.the_host)
           (Demo.self_at "train" None false) 0 3 None); reflexivity.
Defined.

(** X6. Whatever its arguments and however it ends, [runtime_step_cli]
    writes nothing to [os.environ], which it only reads for
    [LD_LIBRARY_PATH], and registers no metadata: what the child is to see
    goes to [cli_args.env]. The file system is left out here: it is for
    the [Conda] object to build the environment in. *)
Theorem runtime_step_cli_keeps_environ (host : Host) (cls : Methods) (self : Self)
    (retry_count max_retries : Z) (ubf_context : option string)
    (cli : CLIArgs) (w : World) :
  let w' := snd (snd (runtime_step_cli host cls self retry_count max_retries
                                       ubf_context (cli, w))) in
  os_environ w' = os_environ w /\ registered w' = registered w.
Proof.
  unfold runtime_step_cli, conda_call, echo, set_entrypoint0, OS.environ_get.
  run_hook.
  repeat (case_match; simpl in *; simplify_eq; try done).
Qed.

(** [runtime_step_cli] on the path that provisions, in one equation. *)
Lemma runtime_step_cli_provision (host : Host) (cls : Methods) (self : Self)
    (retry_count max_retries : Z) (ubf_context : option string)
    (cli : CLIArgs) (w : World) (env_id : EnvID) (home : string) :
  call_is_enabled cls self (Some UBF_TASK) = true ->
  call_is_enabled cls self ubf_context = true ->
  _is_remote self = false ->
  _env_id self = Some env_id ->
  _metaflow_home self = Some home ->
  runtime_step_cli host cls self retry_count max_retries ubf_context (cli, w)
  = match obtain_environment self env_id w with
    | (None, w') =>
        (Raise (InvalidEnvironmentException "Cannot create environment"),
         (set_cli_env "_METAFLOW_CONDA_ENV" (json_dumps host (Some env_id)) cli, w'))
    | (Some prefix, w') =>
        let entry := Py.path_join prefix ["bin"; "python"] in
        let cli' := child_env host self env_id home entry w cli in
        match entrypoint cli with
        | [] => (Raise IndexError, (cli', w'))
        | _ :: args => (Ok tt, (mkCLIArgs (entry :: args) (env cli'), w'))
        end
    end.
Proof.
  intros Htask Hen Hlocal Hid Hhome. unfold runtime_step_cli.
  rewrite Htask, Hen, Hlocal, Hid, Hhome. simpl.
  unfold conda_call, echo, set_entrypoint0, OS.environ_get, obtain_environment,
    child_env.
  run_hook.
  destruct (created_environment _ (conda_calls w) env_id) as [info|]; simpl.
  - destruct (_addl_paths self), (Py.startswith "linux" (arch_id host)); simpl;
      try (destruct (os_environ w !! "LD_LIBRARY_PATH") as [old|]; simpl;
           [destruct (Py.truthy old); simpl|]);
      by destruct (entrypoint cli).
  - destruct (environment _ _ env_id); simpl; [|reflexivity].
    destruct (_addl_paths self), (Py.startswith "linux" (arch_id host)); simpl;
      try (destruct (os_environ w !! "LD_LIBRARY_PATH") as [old|]; simpl;
           [destruct (Py.truthy old); simpl|]);
      by destruct (entrypoint cli).
Qed.

(** X3. When [cli_args.entrypoint] is empty, a worker task that found or
    built its environment still fails at the very end: the hook raises
    [IndexError], with the calls on the [Conda] object made and
    [PYTHONPATH] (and the rest of the child environment) already set. *)
Theorem empty_entrypoint_raises_late (host : Host) (cls : Methods) (self : Self)
    (retry_count max_retries : Z) (ubf_context : option string)
    (cli : CLIArgs) (w : World) (env_id : EnvID) (home prefix : string) :
  call_is_enabled cls self (Some UBF_TASK) = true ->
  call_is_enabled cls self ubf_context = true ->
  _is_remote self = false ->
  _env_id self = Some env_id ->
  _metaflow_home self = Some home ->
  fst (obtain_environment self env_id w) = Some prefix ->
  entrypoint cli = [] ->
  let out :=
    runtime_step_cli host cls self retry_count max_retries ubf_context (cli, w) in
  fst out = Raise IndexError
  /\ entrypoint (fst (snd out)) = []
  /\ env (fst (snd out)) !! "PYTHONPATH"
     = Some (match _addl_paths self with
             | Some paths => Py.join ":" paths ++ ":" ++ home
             | None => home
             end)
  /\ CallCreatedEnvironment env_id ∈ conda_calls (snd (snd out))
  /\ length (conda_calls w) < length (conda_calls (snd (snd out))).
Proof.
  intros Htask Hen Hlocal Hid Hhome Hfound Hentry out. subst out.
  rewrite (runtime_step_cli_provision host cls self retry_count max_retries
             ubf_context cli w env_id home) by assumption.
  destruct (obtain_environment self env_id w) as [found w'] eqn:Hobtain.
  simpl in Hfound. subst found. rewrite Hentry. simpl.
  split; [reflexivity|].
  assert (Hcalls : CallCreatedEnvironment env_id ∈ conda_calls w'
                   /\ length (conda_calls w) < length (conda_calls w')).
  { unfold obtain_environment in Hobtain.
    destruct (created_environment _ _ env_id); simpl in Hobtain.
    - injection Hobtain as _ <-. simpl. split; [by left|lia].
    - destruct (environment _ _ env_id); injection Hobtain as _ <-; simpl;
        (split; [set_solver|lia]). }
  unfold child_env.
  repeat case_match; simpl; rewrite ?Hentry;
    (split; [reflexivity|]);
    (split; [rewrite ?lookup_insert_ne by done; apply lookup_insert_eq
            |exact Hcalls]).
Qed.

Lemma empty_entrypoint_raises_late_witness :
  let out :=
    runtime_step_cli Demo.the_host (CondaEnvInternalDecorator Demo.the_host)
      (Demo.self_at "start" (Some Demo.env_a) false) 0 3 None
      (mkCLIArgs [] ∅, Demo.the_world) in
  fst out = Raise IndexError
  /\ entrypoint (fst (snd out)) = []
  /\ env (fst (snd out)) !! "PYTHONPATH" = Some "/tmp/tmpq1w2e3r4"
  /\ CallCreatedEnvironment Demo.env_a ∈ conda_calls (snd (snd out))
  /\ length (conda_calls Demo.the_world) < length (conda_calls (snd (snd out))).
Proof.
  apply (empty_entrypoint_raises_late Demo.the_host
           (CondaEnvInternalDecorator Demo.the_host)
           (Demo.self_at "start" (Some Demo.env_a) false) 0 3 None
           (mkCLIArgs [] ∅) Demo.the_world Demo.env_a "/tmp/tmpq1w2e3r4"
           "/opt/conda/envs/a"); reflexivity.
Defined.

Lemma string_app_assoc (a b c : string) : (a ++ b) ++ c = a ++ b ++ c.
Proof.
  induction a as [|x a IH]; [reflexivity|].
  change (String x ((a ++ b) ++ c) = String x (a ++ b ++ c)). by rewrite IH.
Qed.

Lemma environment_lib_dir (prefix : string) :
  dir_path prefix ->
  Py.path_join (Py.dirname (Py.dirname (Py.path_join prefix ["bin"; "python"])))
               ["lib"]
  = prefix ++ "/lib".
Proof.
  intros Hp.
  assert (Hbin : dir_path (child prefix "bin")) by (by apply dir_path_child).
  change (Py.path_join prefix ["bin"; "python"])
    with (Py.path_join (Py.path_join prefix ["bin"]) ["python"]).
  rewrite (path_join_plain prefix "bin") by done.
  rewrite (path_join_plain (child prefix "bin") "python") by done.
  rewrite !dirname_child by done.
  by rewrite path_join_plain.
Qed.

(** X4. The library path of the child. On Linux, when [os.environ] has a
    non-empty [LD_LIBRARY_PATH], a worker task that found or built its
    environment in the directory [prefix] gets
    [LD_LIBRARY_PATH = <prefix>/lib:<old value>] in [cli_args.env]; on any
    other architecture, or with the variable unset or empty,
    [LD_LIBRARY_PATH] in [cli_args.env] is left as it was. *)
Theorem library_path_of_child (host : Host) (cls : Methods) (self : Self)
    (retry_count max_retries : Z) (ubf_context : option string)
    (cli : CLIArgs) (w : World) (env_id : EnvID) (home prefix : string) :
  call_is_enabled cls self (Some UBF_TASK) = true ->
  call_is_enabled cls self ubf_context = true ->
  _is_remote self = false ->
  _env_id self = Some env_id ->
  _metaflow_home self = Some home ->
  fst (obtain_environment self env_id w) = Some prefix ->
  dir_path prefix ->
  let out :=
    runtime_step_cli host cls self retry_count max_retries ubf_context (cli, w) in
  env (fst (snd out)) !! "LD_LIBRARY_PATH"
  = match os_environ w !! "LD_LIBRARY_PATH" with
    | Some old =>
        if Py.startswith "linux" (arch_id host) && Py.truthy old
        then Some (prefix ++ "/lib:" ++ old)
        else env cli !! "LD_LIBRARY_PATH"
    | None => env cli !! "LD_LIBRARY_PATH"
    end.
Proof.
  intros Htask Hen Hlocal Hid Hhome Hfound Hprefix out. subst out.
  rewrite (runtime_step_cli_provision host cls self retry_count max_retries
             ubf_context cli w env_id home) by assumption.
  destruct (obtain_environment self env_id w) as [found w'] eqn:Hobtain.
  simpl in Hfound. subst found.
  assert (Henv : env (child_env host self env_id home
                        (Py.path_join prefix ["bin"; "python"]) w cli)
                   !! "LD_LIBRARY_PATH"
                 = match os_environ w !! "LD_LIBRARY_PATH" with
                   | Some old =>
                       if Py.startswith "linux" (arch_id host) && Py.truthy old
                       then Some (prefix ++ "/lib:" ++ old)
                       else env cli !! "LD_LIBRARY_PATH"
                   | None => env cli !! "LD_LIBRARY_PATH"
                   end).
  { unfold child_env. rewrite environment_lib_dir by exact Hprefix.
    destruct (Py.startswith "linux" (arch_id host)),
             (os_environ w !! "LD_LIBRARY_PATH") as [old|]; simpl;
      try destruct (Py.truthy old); simpl; rewrite ?string_app_assoc;
      by simplify_map_eq. }
  by destruct (entrypoint cli).
Qed.

Lemma library_path_of_child_witness :
  env (fst (snd (runtime_step_cli Demo.the_host
                   (CondaEnvInternalDecorator Demo.the_host)
                   (Demo.self_at "start" (Some Demo.env_a) false) 0 3 None
                   (Demo.the_cli, Demo.the_world))))
    !! "LD_LIBRARY_PATH"
  = Some "/opt/conda/envs/a/lib:/usr/lib".
Proof.
  apply (library_path_of_child Demo.the_host
           (CondaEnvInternalDecorator Demo.the_host)
           (Demo.self_at "start" (Some Demo.env_a) false) 0 3 None
           Demo.the_cli Demo.the_world Demo.env_a "/tmp/tmpq1w2e3r4"
           "/opt/conda/envs/a"); try reflexivity.
  by split.
Defined.

(** X5. A worker task that gets as far as looking for its environment
    sends exactly one line to the logger, whatever happens next: "Using
    existing Conda environment" when [conda.created_environment] found
    one, "Creating Conda environment" otherwise, each with the [req_id]
    and the [full_id] of the environment. *)
Theorem provisioning_logs_one_line (host : Host) (cls : Methods) (self : Self)
    (retry_count max_retries : Z) (ubf_context : option string)
    (cli : CLIArgs) (w : World) (env_id : EnvID) (home : string) :
  call_is_enabled cls self (Some UBF_TASK) = true ->
  call_is_enabled cls self ubf_context = true ->
  _is_remote self = false ->
  _env_id self = Some env_id ->
  _metaflow_home self = Some home ->
  echoed (snd (snd (runtime_step_cli host cls self retry_count max_retries
                                     ubf_context (cli, w))))
  = (match created_environment (conda (_env self)) (conda_calls w) env_id with
     | Some _ => "Using existing Conda environment " ++ req_id env_id
                   ++ " (" ++ full_id env_id ++ ")"
     | None => "Creating Conda environment " ++ req_id env_id
                 ++ " (" ++ full_id env_id ++ ")..."
     end) :: echoed w.
Proof.
  intros Htask Hen Hlocal Hid Hhome.
  rewrite (runtime_step_cli_provision host cls self retry_count max_retries
             ubf_context cli w env_id home) by assumption.
  unfold obtain_environment.
  destruct (created_environment _ _ env_id); simpl.
  - by destruct (entrypoint cli).
  - destruct (environment _ _ env_id); simpl; [|reflexivity].
    by destruct (entrypoint cli).
Qed.

Lemma provisioning_logs_one_line_witness :
  echoed (snd (snd (runtime_step_cli Demo.the_host
                      (CondaEnvInternalDecorator Demo.the_host)
                      (Demo.self_at "train" (Some Demo.env_b) false) 0 3 None
                      (Demo.the_cli, Demo.the_world))))
  = ["Creating Conda environment 77d0 (c2e4)..."].
Proof.
  apply (provisioning_logs_one_line Demo.the_host
           (CondaEnvInternalDecorator Demo.the_host)
           (Demo.self_at "train" (Some Demo.env_b) false) 0 3 None
           Demo.the_cli Demo.the_world Demo.env_b "/tmp/tmpq1w2e3r4");
    reflexivity.
Defined.

(** ** [task_pre_step], [runtime_finished] and [step_init] at their edges *)

(** X7. When the process has no [_METAFLOW_CONDA_ENV] in [os.environ], an
    enabled [task_pre_step] raises [KeyError] and registers nothing; the
    change of [PATH] made just before stays. *)
Theorem missing_env_var_raises_key_error (host : Host) (cls : Methods)
    (self : Self) (step_name run_id task_id : string)
    (retry_count max_retries : Z) (ubf_context : option string) (w : World) :
  call_is_enabled cls self ubf_context = true ->
  os_environ w !! "_METAFLOW_CONDA_ENV" = None ->
  let out :=
    task_pre_step host cls self step_name run_id task_id retry_count max_retries
                  ubf_context w in
  fst out = Raise (KeyError "_METAFLOW_CONDA_ENV")
  /\ registered (snd out) = registered w
  /\ os_environ (snd out)
     = <["PATH" := match os_environ w !! "PATH" with
                   | Some old =>
                       Py.dirname (realpath_sys_executable host) ++ ":" ++ old
                   | None => Py.dirname (realpath_sys_executable host)
                   end]> (os_environ w).
Proof.
  intros Hen Hmissing out. subst out.
  rewrite task_pre_step_run by exact Hen. rewrite Hmissing. simpl.
  repeat split.
Qed.

Lemma missing_env_var_raises_key_error_witness :
  let out :=
    task_pre_step Demo.the_host (CondaEnvInternalDecorator Demo.the_host)
                  (Demo.self_at "train" None false) "train" "12" "9" 0 3 None
                  Demo.the_world in
  fst out = Raise (KeyError "_METAFLOW_CONDA_ENV")
  /\ registered (snd out) = registered Demo.the_world
  /\ os_environ (snd out)
     = <["PATH" := match os_environ Demo.the_world !! "PATH" with
                   | Some old =>
                       Py.dirname (realpath_sys_executable Demo.the_host)
                         ++ ":" ++ old
                   | None => Py.dirname (realpath_sys_executable Demo.the_host)
                   end]> (os_environ Demo.the_world).
Proof.
  apply (missing_env_var_raises_key_error Demo.the_host
           (CondaEnvInternalDecorator Demo.the_host)
           (Demo.self_at "train" None false) "train" "12" "9" 0 3 None
           Demo.the_world); reflexivity.
Defined.

(** X8. [runtime_finished] works once. Called on a home that is a
    directory it removes it; called again on the same object it raises
    [FileNotFoundError] for the home and changes nothing. *)
Theorem runtime_finished_only_once (self : Self) (home : string) (w : World) :
  _metaflow_home self = Some home ->
  fs w !! home = Some Dir ->
  exists w',
    runtime_finished self w = (Ok tt, w')
    /\ fs w' !! home = None
    /\ runtime_finished self w' = (Raise (FileNotFoundError home), w').
Proof.
  intros Hhome Hdir. unfold runtime_finished. rewrite Hhome.
  rewrite rmtree_dir by exact Hdir. eexists. split; [reflexivity|].
  assert (Hgone : fs (set_fs (filter (fun kv => OS.under home (fst kv) = false)) w)
                    !! home = None).
  { simpl. by rewrite rmtree_lookup, under_self. }
  split; [exact Hgone|]. unfold OS.rmtree. by rewrite Hgone.
Qed.

Lemma runtime_finished_only_once_witness :
  exists w',
    runtime_finished (fst Demo.after_init) (snd Demo.after_init) = (Ok tt, w')
    /\ fs w' !! "/tmp/tmpb0b0b0b0" = None
    /\ runtime_finished (fst Demo.after_init) w'
       = (Raise (FileNotFoundError "/tmp/tmpb0b0b0b0"), w').
Proof.
  apply (runtime_finished_only_once (fst Demo.after_init) "/tmp/tmpb0b0b0b0"
           (snd Demo.after_init)); by vm_compute.
Defined.

(** X9. [step_init] always returns, and starts the decorator afresh: no
    environment ID, no variables for fetch-at-exec, and [self._is_remote]
    set exactly when one of the decorators of the step is named in
    [CONDA_REMOTE_COMMANDS]. The file system is not touched, nor the home
    an earlier [runtime_init] may have set. *)
Theorem step_init_starts_afresh (host : Host) (flow : FlowSpec)
    (step_name : string) (decorators : list string)
    (environment : CondaEnvironment) (flow_datastore : FlowDataStore)
    (self : Self) (w : World) :
  let out :=
    step_init host flow step_name decorators environment flow_datastore (self, w) in
  let self' := fst (snd out) in
  fst out = Ok tt
  /\ (_is_remote self' = true
      <-> exists d, d ∈ decorators /\ d ∈ CONDA_REMOTE_COMMANDS host)
  /\ _env_id self' = None
  /\ _env_for_fetch self' = ∅
  /\ _step_name self' = step_name
  /\ _metaflow_home self' = _metaflow_home self
  /\ fs (snd (snd out)) = fs w.
Proof.
  simpl. split; [reflexivity|]. split; [|by repeat split].
  rewrite existsb_exists. split.
  - intros (d & Hd & Hin). apply existsb_exists in Hin as (c & Hc & Heq).
    apply String.eqb_eq in Heq as ->.
    exists c. split; by apply list_elem_of_In.
  - intros (d & Hd & Hin). exists d. split; [by apply list_elem_of_In|].
    apply existsb_exists. exists d. split; [by apply list_elem_of_In|].
    apply String.eqb_refl.
Qed.

(** ** Parsing [input_paths[0]] *)

Lemma split_sep_length (s : string) :
  length (Py.split_sep s) = S (count_sep s).
Proof.
  induction s as [|c s IH]; [reflexivity|]. simpl.
  destruct (Py.is_sep c); simpl; [by rewrite IH|].
  destruct (Py.split_sep s); simpl in *; [discriminate|exact IH].
Qed.

Lemma split_sep_join (s : string) : Py.join "/" (Py.split_sep s) = s.
Proof.
  induction s as [|c s IH]; [reflexivity|]. simpl.
  destruct (Py.is_sep c) eqn:Hc.
  - apply Ascii.eqb_eq in Hc as ->.
    pose proof (split_sep_length s) as Hlen.
    destruct (Py.split_sep s) as [|x xs]; [discriminate|].
    unfold Py.join in *. cbn [String.concat]. cbn [String.concat] in IH.
    by rewrite IH.
  - pose proof (split_sep_length s) as Hlen.
    destruct (Py.split_sep s) as [|x xs]; [discriminate|].
    unfold Py.join in *. destruct xs as [|y ys].
    + cbn [String.concat] in *. by rewrite IH.
    + cbn [String.concat] in *. rewrite <- IH. reflexivity.
Qed.

Lemma split_sep_plain (s : string) :
  Forall (fun part => Py.has_sep part = false) (Py.split_sep s).
Proof.
  induction s as [|c s IH]; [by repeat constructor|]. simpl.
  destruct (Py.is_sep c) eqn:Hc.
  - constructor; [reflexivity|exact IH].
  - destruct (Py.split_sep s) as [|x xs].
    { constructor; [simpl; by rewrite Hc|constructor]. }
    apply Forall_cons in IH as [Hx Hxs]. constructor; [|exact Hxs].
    simpl. by rewrite Hc, Hx.
Qed.

(** A string with two slashes splits into three parts and back. *)
Lemma split_sep_three (s : string) :
  count_sep s = 2 <->
  exists a b c, Py.split_sep s = [a; b; c].
Proof.
  pose proof (split_sep_length s) as Hlen. split.
  - intros H2. rewrite H2 in Hlen.
    destruct (Py.split_sep s) as [|a [|b [|c [|d l]]]]; try discriminate. eauto.
  - intros (a & b & c & Heq). rewrite Heq in Hlen. simpl in Hlen. lia.
Qed.

(** X10. On the fetch-at-exec path [runtime_task_created] fails on a
    malformed [input_paths] before it records anything: [IndexError] when
    [input_paths] is empty, [ValueError] exactly when [input_paths[0]] does
    not hold two slashes. In both cases [self] is as it was. With two
    slashes the hook gets past the parsing: it returns or raises
    [InvalidEnvironmentException]. *)
Theorem fetch_at_exec_rejects_bad_pathspec (host : Host) (cls : Methods) (task_id : string)
    (split_index : Z) (input_paths : list string) (is_cloned : bool)
    (ubf_context : option string) (self : Self) :
  call_is_enabled cls self ubf_context = true ->
  call_is_fetch_at_exec cls self ubf_context = true ->
  let out :=
    runtime_task_created host cls task_id split_index input_paths is_cloned
                         ubf_context self in
  match input_paths with
  | [] => out = (Raise IndexError, self)
  | path0 :: _ =>
      if decide (count_sep path0 = 2)
      then fst out = Ok tt \/ exists msg, fst out = Raise (InvalidEnvironmentException msg)
      else out = (Raise ValueError, self)
  end.
Proof.
  intros He Hf out. subst out. destruct input_paths as [|path0 more].
  - unfold runtime_task_created. rewrite bind_run. unfold get at 1.
    by rewrite He, Hf.
  - destruct (decide (count_sep path0 = 2)) as [H2|Hn2].
    + apply split_sep_three in H2 as (a & b & c & Hsplit).
      rewrite (runtime_task_created_fetch host cls task_id split_index path0 more
                 is_cloned ubf_context self a b c He Hf Hsplit).
      simpl. destruct (resolve_fetch_at_exec_env _ _ _); simpl; eauto.
    + unfold runtime_task_created. rewrite bind_run. unfold get at 1.
      rewrite He, Hf.
      destruct (Py.split_sep path0) as [|a [|b [|c [|d l]]]] eqn:Hsplit;
        try reflexivity.
      exfalso. apply Hn2. apply split_sep_three. eauto.
Qed.

Lemma fetch_at_exec_rejects_bad_pathspec_witness :
  runtime_task_created Demo.the_host Demo.FetchAtExecDecorator "9" 0 ["12/start"] false
                       (Some UBF_TASK) (Demo.self_at "train" None false)
  = (Raise ValueError, Demo.self_at "train" None false).
Proof.
  apply (fetch_at_exec_rejects_bad_pathspec Demo.the_host Demo.FetchAtExecDecorator "9" 0
           ["12/start"] false (Some UBF_TASK) (Demo.self_at "train" None false));
    reflexivity.
Defined.

(** X11. When [input_paths[0]] holds two slashes, the parent datastore
    that the fetch-at-exec path opens, and puts in every deferred
    parameter load, is the one of the task [input_paths[0]] names: its run
    id, step name and task id hold no slash and, joined by slashes, give
    [input_paths[0]] back; and [METAFLOW_TASK_ID] is that task id, not the
    [task_id] the hook was called with. *)
Theorem fetch_at_exec_uses_parent_pathspec (host : Host) (cls : Methods) (task_id : string)
    (split_index : Z) (path0 : string) (more_paths : list string)
    (is_cloned : bool) (ubf_context : option string) (self : Self) :
  call_is_enabled cls self ubf_context = true ->
  call_is_fetch_at_exec cls self ubf_context = true ->
  count_sep path0 = 2 ->
  let out :=
    runtime_task_created host cls task_id split_index (path0 :: more_paths) is_cloned
                         ubf_context self in
  let vars := _env_for_fetch (snd out) in
  exists parent_ds,
    ds_run_id parent_ds ++ "/" ++ ds_step_name parent_ds ++ "/" ++ ds_task_id parent_ds
    = path0
    /\ Py.has_sep (ds_run_id parent_ds) = false
    /\ Py.has_sep (ds_step_name parent_ds) = false
    /\ Py.has_sep (ds_task_id parent_ds) = false
    /\ vars !! "METAFLOW_TASK_ID" = Some (FetchStr (ds_task_id parent_ds))
    /\ forall var, var ∈ _get_parameters (_flow self) ->
         exists var', var' ∈ _get_parameters (_flow self)
                      /\ init_key host var' = init_key host var
                      /\ vars !! init_key host var = Some (FetchParam var' parent_ds).
Proof.
  intros He Hf H2 out vars.
  apply split_sep_three in H2 as (a & b & c & Hsplit).
  pose proof (split_sep_join path0) as Hjoin.
  pose proof (split_sep_plain path0) as Hplain.
  rewrite Hsplit in Hjoin, Hplain.
  apply Forall_cons in Hplain as [Ha Hplain].
  apply Forall_cons in Hplain as [Hb Hplain].
  apply Forall_cons in Hplain as [Hc _].
  exists (mkTaskDataStore a b c). simpl.
  split; [exact Hjoin|]. do 3 (split; [assumption|]).
  assert (Hv : vars = <["METAFLOW_TASK_ID" := FetchStr c]>
                        (record_parameters host (_get_parameters (_flow self))
                           (mkTaskDataStore a b c) (_env_for_fetch self))).
  { unfold vars, out.
    rewrite (runtime_task_created_fetch host cls task_id split_index path0 more_paths
               is_cloned ubf_context self a b c He Hf Hsplit).
    simpl. by destruct (resolve_fetch_at_exec_env _ _ _). }
  split; [rewrite Hv; apply lookup_insert_eq|].
  intros var Hin.
  destruct (record_parameters_key host (mkTaskDataStore a b c) (init_key host var)
              (_get_parameters (_flow self)) (_env_for_fetch self))
    as (var' & Hin' & Hk' & Hl); [by apply list_elem_of_fmap_2|].
  exists var'. split; [done|]. split; [done|].
  rewrite Hv, lookup_insert_ne; [exact Hl|].
  intros Heq. symmetry in Heq. revert Heq.
  apply init_key_not_reserved. set_solver.
Qed.

Lemma fetch_at_exec_uses_parent_pathspec_witness :
  let out :=
    runtime_task_created Demo.the_host Demo.FetchAtExecDecorator "9" 0 ["12/start/7"] false
                         (Some UBF_TASK) (Demo.self_at "train" None false) in
  let vars := _env_for_fetch (snd out) in
  exists parent_ds,
    ds_run_id parent_ds ++ "/" ++ ds_step_name parent_ds ++ "/" ++ ds_task_id parent_ds
    = "12/start/7"
    /\ Py.has_sep (ds_run_id parent_ds) = false
    /\ Py.has_sep (ds_step_name parent_ds) = false
    /\ Py.has_sep (ds_task_id parent_ds) = false
    /\ vars !! "METAFLOW_TASK_ID" = Some (FetchStr (ds_task_id parent_ds))
    /\ forall var, var ∈ _get_parameters (_flow (Demo.self_at "train" None false)) ->
         exists var',
           var' ∈ _get_parameters (_flow (Demo.self_at "train" None false))
           /\ init_key Demo.the_host var' = init_key Demo.the_host var
           /\ vars !! init_key Demo.the_host var
              = Some (FetchParam var' parent_ds).
Proof.
  apply (fetch_at_exec_uses_parent_pathspec Demo.the_host Demo.FetchAtExecDecorator "9" 0
           "12/start/7" [] false (Some UBF_TASK) (Demo.self_at "train" None false));
    reflexivity.
Defined.

(** ** The hooks in the order the runtime calls them *)

(** Once [runtime_init] has returned, [self._metaflow_home] is set. *)
Lemma runtime_init_sets_home (host : Host) (cls : Methods) (run_id : string)
    (self : Self) (w : World) (self' : Self) (w' : World) :
  runtime_init host cls run_id (self, w) = (Ok tt, (self', w')) ->
  is_Some (_metaflow_home self').
Proof.
  set (P := fun s : Self => is_Some (_metaflow_home s)).
  assert (Hh : forall h x, P x -> P (set_metaflow_home h x)) by (intros; by eexists).
  assert (Ha : forall l x, P x -> P (set_addl_paths l x)) by (intros ? ? H; exact H).
  unfold runtime_init. rewrite bind_run.
  destruct (on_snd (OS.mkdtemp "/tmp") (self, w)) as [[home|e] s1]; [|discriminate].
  rewrite bind_run. unfold on_fst at 1, modify at 1.
  intros Hrun.
  assert (Hkeep : keeps_self P
    (on_fst (modify (set_addl_paths None)) ;;;
     link_metaflow host home ;;;
     link_extensions host home ;;;
     on_snd (generate_trampolines host home) ;;;
     save_for_fetch cls run_id)).
  { apply keeps_self_bind; [apply keeps_self_modify; auto|intros _].
    apply keeps_self_bind; [by apply keeps_self_link_metaflow|intros _].
    apply keeps_self_bind; [by apply keeps_self_link_extensions|intros _].
    apply keeps_self_bind; [apply keeps_self_on_snd|intros _].
    unfold save_for_fetch.
    apply keeps_self_bind; [apply keeps_self_get|intros s].
    destruct (_ && _); [apply keeps_self_modify; auto|apply keeps_self_ret]. }
  specialize (Hkeep (set_metaflow_home home (fst s1), snd s1)).
  rewrite Hrun in Hkeep. apply Hkeep. by eexists.
Qed.

(** X12. The assertion of [runtime_step_cli] cannot fail in the order of
    the runtime. After [step_init], a [runtime_init] that returned and a
    [runtime_task_created] that returned in a context in which the step is
    enabled, [self._env_id] is the [EnvID] that [get_env_id_noconda] gave
    for the step and the home is set; [runtime_step_cli] in that context
    then exports [json.dumps] of this ID and raises neither
    [AssertionError] nor [AttributeError]. *)
Theorem hooks_in_order_reach_provisioning (host : Host) (flow : FlowSpec)
    (step_name : string) (decorators : list string)
    (environment : CondaEnvironment) (flow_datastore : FlowDataStore)
    (self0 : Self) (w0 : World) (run_id : string) (w1 : World)
    (self2 : Self) (w2 : World) (task_id : string) (split_index : Z)
    (input_paths : list string) (is_cloned : bool) (ubf_context : option string)
    (self3 : Self) (retry_count max_retries : Z) (cli : CLIArgs) (w3 : World) :
  let D := CondaEnvInternalDecorator host in
  let self1 :=
    fst (snd (step_init host flow step_name decorators environment flow_datastore
                        (self0, w0))) in
  runtime_init host D run_id (self1, w1) = (Ok tt, (self2, w2)) ->
  runtime_task_created host D task_id split_index input_paths is_cloned ubf_context self2
  = (Ok tt, self3) ->
  _is_enabled host self3 ubf_context = true ->
  let out :=
    runtime_step_cli host D self3 retry_count max_retries ubf_context (cli, w3) in
  exists env_id home,
    get_env_id_noconda environment step_name = inr env_id
    /\ _env_id self3 = Some env_id
    /\ _metaflow_home self3 = Some home
    /\ env (fst (snd out)) !! "_METAFLOW_CONDA_ENV"
       = Some (json_dumps host (Some env_id))
    /\ fst out <> Raise AssertionError
    /\ forall attr, fst out <> Raise (AttributeError attr).
Proof.
  intros D self1 Hinit Hcreated Hen out.
  (* what runtime_init left of self1 *)
  pose proof (runtime_init_self host D run_id self1 w1) as Hself.
  unfold post in Hself. rewrite Hinit in Hself. simpl in Hself.
  destruct Hself as (mid & (Henv & _ & Hstep & _ & _ & _ & Hremote) & Hmid).
  rewrite andb_false_r in Hmid. subst mid.
  destruct (runtime_init_sets_home host D run_id self1 w1 self2 w2 Hinit)
    as [home Hhome].
  simpl in Henv, Hstep.
  (* what runtime_task_created did *)
  assert (Hen2 : _is_enabled host self2 ubf_context = true).
  { destruct (_is_enabled host self2 ubf_context) eqn:E; [reflexivity|].
    rewrite runtime_task_created_disabled in Hcreated by exact E.
    injection Hcreated as <-. congruence. }
  rewrite runtime_task_created_noconda in Hcreated by (exact Hen2 || reflexivity).
  rewrite Henv, Hstep in Hcreated.
  destruct (get_env_id_noconda environment step_name) as [t|env_id] eqn:Hid;
    [discriminate|].
  injection Hcreated as <-.
  exists env_id, home. split; [reflexivity|]. split; [reflexivity|].
  split; [exact Hhome|].
  assert (Htask : _is_enabled host (set_env_id (Some env_id) self2) (Some UBF_TASK)
                  = true).
  { apply is_enabled_worker. apply is_enabled_worker in Hen as [_ ?]. done. }
  split.
  { apply runtime_step_cli_exports. simpl. by rewrite Htask. }
  subst out.
  destruct (_is_remote self2) eqn:Hrem.
  - rewrite runtime_step_cli_export_only; simpl; rewrite ?Htask, ?Hrem; try done.
  - rewrite (runtime_step_cli_provision host D (set_env_id (Some env_id) self2)
               retry_count max_retries ubf_context cli w3 env_id home);
      try done.
    destruct (obtain_environment _ env_id w3) as [[prefix|] w']; simpl;
      [destruct (entrypoint cli)|]; simpl; split; try done.
Qed.

Lemma hooks_in_order_reach_provisioning_witness :
  let D := CondaEnvInternalDecorator Demo.the_host in
  let out :=
    runtime_step_cli Demo.the_host D (fst Demo.after_lifecycle) 0 3 None
                     (Demo.the_cli, snd Demo.after_lifecycle) in
  exists env_id home,
    get_env_id_noconda Demo.the_env "train" = inr env_id
    /\ _env_id (fst Demo.after_lifecycle) = Some env_id
    /\ _metaflow_home (fst Demo.after_lifecycle) = Some home
    /\ env (fst (snd out)) !! "_METAFLOW_CONDA_ENV"
       = Some (json_dumps Demo.the_host (Some env_id))
    /\ fst out <> Raise AssertionError
    /\ forall attr, fst out <> Raise (AttributeError attr).
Proof.
  apply (hooks_in_order_reach_provisioning Demo.the_host Demo.the_flow "train" []
           Demo.the_env {| flow_name := "TrainFlow" |}
           (Demo.self_at EmptyString None false) Demo.the_world "12"
           (snd (snd Demo.after_step_init))
           (fst Demo.after_runtime_init) (snd Demo.after_runtime_init)
           "9" 0 ["12/start/7"] false None (fst Demo.after_lifecycle) 0 3
           Demo.the_cli (snd Demo.after_lifecycle)); by vm_compute.
Defined.

(** X13. A control task whose step has seen no worker task yet exports an
    unresolved ID. After [step_init] and [runtime_init] (however it ended),
    [runtime_task_created] in the control context leaves [self._env_id] at
    [None], and [runtime_step_cli] in the control context of an enabled
    step then puts [json.dumps(None)] under [_METAFLOW_CONDA_ENV]. *)
Theorem control_task_exports_unresolved_id (host : Host) (flow : FlowSpec)
    (step_name : string) (decorators : list string)
    (environment : CondaEnvironment) (flow_datastore : FlowDataStore)
    (self0 : Self) (w0 : World) (run_id : string) (w1 : World)
    (task_id : string) (split_index : Z) (input_paths : list string)
    (is_cloned : bool) (retry_count max_retries : Z) (cli : CLIArgs) (w : World) :
  enabled_for_step host step_name = true ->
  let D := CondaEnvInternalDecorator host in
  let self1 :=
    fst (snd (step_init host flow step_name decorators environment flow_datastore
                        (self0, w0))) in
  let self2 := fst (snd (runtime_init host D run_id (self1, w1))) in
  runtime_task_created host D task_id split_index input_paths is_cloned
                       (Some UBF_CONTROL) self2 = (Ok tt, self2)
  /\ _env_id self2 = None
  /\ runtime_step_cli host D self2 retry_count max_retries (Some UBF_CONTROL) (cli, w)
     = (Ok tt, (set_cli_env "_METAFLOW_CONDA_ENV" (json_dumps host None) cli, w)).
Proof.
  intros Hon D self1 self2.
  pose proof (runtime_init_self host D run_id self1 w1) as Hself.
  unfold post in Hself.
  destruct Hself as (mid & (_ & _ & Hstep & _ & _ & Hid & _) & Hmid).
  assert (Hmid' : self2 = mid).
  { unfold self2. destruct (fst (runtime_init host D run_id (self1, w1)));
      [|exact Hmid]. rewrite Hmid. simpl. by rewrite andb_false_r. }
  simpl in Hstep, Hid. rewrite <- Hmid' in Hstep, Hid.
  split; [reflexivity|]. split; [exact Hid|].
  rewrite runtime_step_cli_export_only.
  - by rewrite Hid.
  - simpl. unfold _is_enabled. simpl. by rewrite Hstep, Hon.
  - simpl. apply orb_true_r.
Qed.

Lemma control_task_exports_unresolved_id_witness :
  let D := CondaEnvInternalDecorator Demo.the_host in
  let self2 := fst Demo.after_runtime_init in
  runtime_task_created Demo.the_host D "9" 0 ["12/start/7"] false (Some UBF_CONTROL) self2
  = (Ok tt, self2)
  /\ _env_id self2 = None
  /\ runtime_step_cli Demo.the_host D self2 0 3 (Some UBF_CONTROL)
                      (Demo.the_cli, Demo.the_world)
     = (Ok tt, (set_cli_env "_METAFLOW_CONDA_ENV" (json_dumps Demo.the_host None)
                            Demo.the_cli,
                Demo.the_world)).
Proof.
  apply (control_task_exports_unresolved_id Demo.the_host Demo.the_flow "train" []
           Demo.the_env {| flow_name := "TrainFlow" |}
           (Demo.self_at EmptyString None false) Demo.the_world "12"
           (snd (snd Demo.after_step_init)) "9" 0 ["12/start/7"] false 0 3
           Demo.the_cli Demo.the_world).
  reflexivity.
Defined.

(** ** [runtime_init] at its edges *)

(** X14. Without a directory [/tmp] there is no home: on a well-formed
    file system that has no [/tmp], [runtime_init] raises
    [FileNotFoundError] for the first name [tempfile] tries, and leaves
    [self] (no [_metaflow_home] is set) and the file system as they were. *)
Theorem runtime_init_without_tmp (host : Host) (cls : Methods) (run_id : string)
    (self : Self) (w : World) (n : string) (rest : list string) :
  fs_wf (fs w) ->
  fs w !! "/tmp" = None ->
  candidate_names w = n :: rest ->
  Py.has_sep n = false ->
  runtime_init host cls run_id (self, w)
  = (Raise (FileNotFoundError ("/tmp/tmp" ++ n)),
     (self, set_candidate_names rest w)).
Proof.
  intros Hwf Htmp Hcand Hn.
  assert (Hfresh : fs w !! ("/tmp/tmp" ++ n) = None).
  { apply (fresh_child (fs w) "/tmp"); [exact Hwf|exact Htmp| |].
    - by apply tmp_home_parent.
    - apply (child_ne_self "/tmp" ("tmp" ++ n)). }
  unfold runtime_init. rewrite bind_run. unfold on_snd at 1, OS.mkdtemp.
  cbn [fst snd]. rewrite Hcand. cbn [OS.mkdtemp_from].
  change (Py.path_join "/tmp" ["tmp" ++ n]) with ("/tmp/tmp" ++ n).
  unfold OS.mkdir, OS.create, OS.parent_error. simpl.
  rewrite Hfresh, tmp_home_parent by exact Hn. by rewrite Htmp.
Qed.

Lemma runtime_init_without_tmp_witness :
  runtime_init Demo.the_host (CondaEnvInternalDecorator Demo.the_host) "12"
               (Demo.self_at "train" None false,
                set_fs (fun _ => {["/" := Dir]}) Demo.the_world)
  = (Raise (FileNotFoundError "/tmp/tmpaaaaaaaa"),
     (Demo.self_at "train" None false,
      set_candidate_names ["b0b0b0b0"; "c1c1c1c1"; "d2d2d2d2"]
        (set_fs (fun _ => {["/" := Dir]}) Demo.the_world))).
Proof.
  apply (runtime_init_without_tmp Demo.the_host
           (CondaEnvInternalDecorator Demo.the_host) "12"
           (Demo.self_at "train" None false)
           (set_fs (fun _ => {["/" := Dir]}) Demo.the_world)
           "aaaaaaaa" ["b0b0b0b0"; "c1c1c1c1"; "d2d2d2d2"]); try reflexivity.
  intros p node Hp Hne. simpl in Hp.
  apply lookup_singleton_Some in Hp as [<- _]. by vm_compute in Hne.
Defined.

Section WorldFrame.

Variable P : World -> Prop.
Hypothesis P_fs : forall f w, P w -> P (set_fs f w).
Hypothesis P_names : forall l w, P w -> P (set_candidate_names l w).

Lemma keeps_world_ret {S A} (a : A) : keeps_world (S := S) P (ret a).
Proof. intros s Hs. exact Hs. Qed.

Lemma keeps_world_bind {S A B} (m : M (S * World) A) (k : A -> M (S * World) B) :
  keeps_world P m -> (forall a, keeps_world P (k a)) -> keeps_world P (bind m k).
Proof.
  intros Hm Hk s Hs. rewrite bind_run. specialize (Hm s Hs).
  destruct (m s) as [[a|e] s']; simpl in *; [by apply Hk | exact Hm].
Qed.

Lemma keeps_world_on_fst {S A} (m : M S A) : keeps_world P (on_fst m).
Proof. intros s Hs. unfold on_fst. by destruct (m (fst s)). Qed.

Lemma keeps_world_on_snd {S A} (m : M World A) :
  (forall w, P w -> P (snd (m w))) -> keeps_world (S := S) P (on_snd m).
Proof.
  intros Hm s Hs. unfold on_snd. specialize (Hm (snd s) Hs).
  by destruct (m (snd s)).
Qed.

Lemma keeps_world_for_each {S A} (l : list A) (body : A -> M (S * World) unit) :
  (forall x, keeps_world P (body x)) -> keeps_world P (for_each l body).
Proof.
  intros Hbody. induction l as [|x l IH]; simpl.
  - apply keeps_world_ret.
  - apply keeps_world_bind; auto.
Qed.

Lemma create_keeps (p : string) (n : Node) (w : World) :
  P w -> P (snd (OS.create p n w)).
Proof.
  intros Hw. unfold OS.create.
  destruct (fs w !! p); [exact Hw|].
  destruct (OS.parent_error (fs w) p); [exact Hw|]. by apply P_fs.
Qed.

Lemma write_text_keeps (p content : string) (w : World) :
  P w -> P (snd (OS.write_text p content w)).
Proof.
  intros Hw. unfold OS.write_text.
  destruct (OS.follow OS.MAXSYMLINKS (fs w) p) as [q|]; [|exact Hw].
  destruct (fs w !! q) as [[| |]|]; simpl; auto.
  destruct (OS.parent_error (fs w) q); simpl; auto.
Qed.

Lemma mkdtemp_keeps (dir : string) (w : World) :
  P w -> P (snd (OS.mkdtemp dir w)).
Proof.
  unfold OS.mkdtemp. generalize (candidate_names w) as names.
  intros names. revert w. induction names as [|n names IH]; intros w Hw.
  - simpl. by apply P_names.
  - cbn [OS.mkdtemp_from]. unfold OS.mkdir.
    pose proof (create_keeps (Py.path_join dir ["tmp" ++ n]) Dir
                  (set_candidate_names names w) (P_names _ _ Hw)) as Hc.
    destruct (OS.create _ Dir _) as [[[]|e] w'] eqn:Hcreate; simpl in Hc;
      [exact Hc|].
    destruct e; try exact Hc. by apply IH.
Qed.

Lemma trampolines_keep (host : Host) (out_dir : string) (w : World) :
  P w -> P (snd (generate_trampolines host out_dir w)).
Proof.
  unfold generate_trampolines. generalize (trampolines host) as l.
  intros l. revert w. induction l as [|mc l IH]; intros w Hw; [exact Hw|].
  cbn [for_each]. rewrite bind_run. unfold modify at 1. apply IH. by apply P_fs.
Qed.

Lemma runtime_init_keeps_world (host : Host) (cls : Methods) (run_id : string) :
  keeps_world P (runtime_init host cls run_id).
Proof.
  unfold runtime_init.
  apply keeps_world_bind; [apply keeps_world_on_snd, mkdtemp_keeps|intros home].
  apply keeps_world_bind; [apply keeps_world_on_fst|intros _].
  apply keeps_world_bind; [apply keeps_world_on_fst|intros _].
  apply keeps_world_bind.
  { unfold link_metaflow.
    apply keeps_world_bind; [apply keeps_world_on_snd, create_keeps|intros _].
    apply keeps_world_bind; [apply keeps_world_on_snd; auto|intros [|]].
    - apply keeps_world_on_snd, create_keeps.
    - apply keeps_world_bind; [apply keeps_world_on_fst|intros ?].
      apply keeps_world_on_snd, write_text_keeps. }
  intros _. apply keeps_world_bind.
  { assert (Hloop : forall l : list string,
      keeps_world P
        (on_fst (modify (set_addl_paths (Some []))) ;;;
         for_each l (fun p =>
           temp_dir <- on_snd (OS.mkdtemp home) ;;
           on_snd (OS.symlink p (Py.path_join temp_dir [EXT_PKG])) ;;;
           on_fst (modify (fun self =>
             set_addl_paths
               (option_map (fun l => (l ++ [temp_dir])%list) (_addl_paths self))
               self))))).
    { intros l. apply keeps_world_bind; [apply keeps_world_on_fst|intros _].
      apply keeps_world_for_each. intros p.
      apply keeps_world_bind; [apply keeps_world_on_snd, mkdtemp_keeps|intros d].
      apply keeps_world_bind; [apply keeps_world_on_snd, create_keeps|intros _].
      apply keeps_world_on_fst. }
    unfold link_extensions. destruct (ext_pkg_path host) as [m_path|].
    - destruct (list_of_set host m_path) as [|p [|q l]] eqn:Hl.
      + apply Hloop.
      + apply keeps_world_on_snd, create_keeps.
      + apply Hloop.
    - apply keeps_world_ret. }
  intros _.
  apply keeps_world_bind; [apply keeps_world_on_snd, trampolines_keep|intros _].
  unfold save_for_fetch.
  apply keeps_world_bind; [apply keeps_world_on_fst|intros s].
  destruct (_ && _); [apply keeps_world_on_fst|apply keeps_world_ret].
Qed.

End WorldFrame.

(** X16. However it ends, [runtime_init] works on files only: [os.environ],
    the logger, the [Conda] object and the metadata are as before; and on
    the decorator object of this class it changes [_metaflow_home] and
    [_addl_paths] and nothing else. *)
Theorem runtime_init_touches_files_only (host : Host) (run_id : string)
    (self : Self) (w : World) :
  let out := runtime_init host (CondaEnvInternalDecorator host) run_id (self, w) in
  same_process w (snd (snd out)) /\ same_but_home self (fst (snd out)).
Proof.
  intros out. split.
  - apply (runtime_init_keeps_world (same_process w)); [| |by repeat split].
    + intros f w' Hw'. exact Hw'.
    + intros l w' Hw'. exact Hw'.
  - pose proof (runtime_init_self host (CondaEnvInternalDecorator host) run_id
                  self w) as H.
    unfold post in H. destruct H as (mid & Hmid & H). fold out in H.
    assert (Hs : fst (snd out) = mid).
    { destruct (fst out); [|exact H]. rewrite H. simpl. by rewrite andb_false_r. }
    by rewrite Hs.
Qed.

(** ** The extension package in the home *)

Section ExtensionLayout.

Variable host : Host.
Variable fs0 : gmap string Node.
Variable home : string.
Hypothesis home_dir : dir_path home.

Lemma extension_dir_round (link info : Node) (p : string) (self : Self) (w : World)
    (m : string) (rest : list string) :
  round_ready fs0 home link info w ->
  candidate_names w = m :: rest ->
  let temp_dir := child home ("tmp" ++ m) in
  let w' :=
    set_fs (insert (child temp_dir EXT_PKG) (Symlink p))
      (set_fs (insert temp_dir Dir) (set_candidate_names rest w)) in
  (temp_dir <- on_snd (OS.mkdtemp home) ;;
   on_snd (OS.symlink p (Py.path_join temp_dir [EXT_PKG])) ;;;
   on_fst (modify (fun self =>
     set_addl_paths
       (option_map (fun l => (l ++ [temp_dir])%list) (_addl_paths self))
       self))) (self, w)
  = (Ok tt,
     (set_addl_paths
        (option_map (fun l => (l ++ [temp_dir])%list) (_addl_paths self)) self,
      w'))
  /\ round_ready fs0 home link info w'
  /\ fs w !! temp_dir = None
  /\ fs w !! child temp_dir EXT_PKG = None.
Proof.
  intros (Hwf & Htree & Hlinked & Hnd & Hplain & Hfree) Hcand temp_dir w'.
  rewrite Hcand in Hnd, Hplain, Hfree.
  apply NoDup_cons in Hnd as [Hm_rest Hnd].
  apply Forall_cons in Hplain as [Hm Hplain].
  apply Forall_cons in Hfree as [Hm_free Hfree].
  assert (Hname : Py.has_sep ("tmp" ++ m) = false) by exact Hm.
  assert (Hname_ne : "tmp" ++ m <> EmptyString) by discriminate.
  pose proof (dir_path_child home ("tmp" ++ m) Hname Hname_ne) as Htemp.
  destruct Htree as [Hframe Hhome].
  set (w1 := set_fs (insert temp_dir Dir) (set_candidate_names rest w)).
  assert (Hmk : OS.mkdtemp home w = (Ok temp_dir, w1)).
  { pose proof (mkdtemp_fresh home [] m rest w Hcand (Forall_nil_2 _)) as Hmk.
    rewrite path_join_plain in Hmk by done.
    rewrite dirname_child in Hmk by done. by apply Hmk. }
  set (link_path := child temp_dir EXT_PKG).
  assert (Hlink_fresh : fs w !! link_path = None).
  { apply (fresh_child (fs w) temp_dir); [exact Hwf|exact Hm_free| |].
    - by apply dirname_child.
    - apply child_ne_self. }
  assert (Hsym : OS.symlink p (Py.path_join temp_dir [EXT_PKG]) w1 = (Ok tt, w')).
  { rewrite path_join_plain by done. unfold OS.symlink. apply create_fresh.
    - unfold w1. simpl. rewrite lookup_insert_ne by (symmetry; apply child_ne_self).
      exact Hlink_fresh.
    - unfold w1, link_path. simpl. rewrite dirname_child by done.
      apply lookup_insert_eq. }
  split.
  { rewrite bind_run. unfold on_snd at 1. cbn [fst snd]. rewrite Hmk.
    rewrite bind_run. unfold on_snd at 1. cbn [fst snd]. rewrite Hsym.
    reflexivity. }
  split; [|by split].
  split; [|split; [|split]].
  - unfold w', w1. simpl. apply fs_wf_insert.
    + apply fs_wf_insert; [exact Hwf|exact Hm_free|].
      unfold temp_dir. by rewrite dirname_child.
    + rewrite lookup_insert_ne by (symmetry; apply child_ne_self). exact Hlink_fresh.
    + unfold link_path. rewrite dirname_child by done. apply lookup_insert_eq.
  - unfold w', w1. simpl. apply home_tree_insert.
    + apply home_tree_insert; [by split|by apply under_child|apply child_ne_self].
    + by apply under_grandchild.
    + intros Heq. unfold link_path in Hlink_fresh. rewrite Heq in Hlink_fresh.
      congruence.
  - destruct Hlinked as [Hl1 Hl2].
    unfold w', w1. simpl. apply linked_insert.
    + apply linked_insert; [by split| |];
        intros Heq; unfold temp_dir in *; congruence.
    + intros Heq; unfold link_path in *; congruence.
    + intros Heq; unfold link_path in *; congruence.
  - unfold w', w1. simpl. split; [exact Hnd|]. split; [exact Hplain|].
    apply Forall_forall. intros m' Hm'. simpl.
    assert (Hm'_plain : Py.has_sep ("tmp" ++ m') = false).
    { rewrite Forall_forall in Hplain. exact (Hplain m' Hm'). }
    rewrite lookup_insert_ne.
    + rewrite lookup_insert_ne.
      * rewrite Forall_forall in Hfree. by apply Hfree.
      * intros Heq%child_inj. by simplify_eq.
    + intros Heq. apply (f_equal Py.dirname) in Heq.
      rewrite !dirname_child in Heq by done.
      by apply child_ne_self in Heq.
Qed.

(** The whole loop: one directory per path, in the order of the paths,
    each named after the next name of [tempfile] and holding the link to
    its path; what was in the file system stays. *)
Lemma extension_dirs_layout (link info : Node) (l : list string) (self : Self)
    (w : World) :
  round_ready fs0 home link info w -> length l <= length (candidate_names w) ->
  let dirs :=
    (fun m => child home ("tmp" ++ m)) <$> take (length l) (candidate_names w) in
  exists self' w',
    for_each l (fun p =>
      temp_dir <- on_snd (OS.mkdtemp home) ;;
      on_snd (OS.symlink p (Py.path_join temp_dir [EXT_PKG])) ;;;
      on_fst (modify (fun self =>
        set_addl_paths
          (option_map (fun l => (l ++ [temp_dir])%list) (_addl_paths self))
          self))) (self, w)
    = (Ok tt, (self', w'))
    /\ _addl_paths self' = option_map (fun old => (old ++ dirs)%list) (_addl_paths self)
    /\ _metaflow_home self' = _metaflow_home self
    /\ Forall2 (fun p d => fs w' !! child d EXT_PKG = Some (Symlink p)
                            /\ Py.dirname (child d EXT_PKG) = d /\ d <> home)
               l dirs
    /\ round_ready fs0 home link info w'
    /\ (forall k, is_Some (fs w !! k) -> fs w' !! k = fs w !! k).
Proof.
  revert self w. induction l as [|p l IH]; intros self w Hready Hlen dirs.
  - exists self, w. split; [reflexivity|]. subst dirs. simpl.
    split; [destruct (_addl_paths self); simpl; by rewrite ?app_nil_r|].
    split; [reflexivity|]. split; [constructor|]. by split.
  - destruct (candidate_names w) as [|m rest] eqn:Hcand; [simpl in Hlen; lia|].
    destruct (extension_dir_round link info p self w m rest Hready Hcand)
      as (Hround & Hready' & Hdir_fresh & Hlink_fresh).
    set (temp_dir := child home ("tmp" ++ m)) in *.
    set (w1 := set_fs (insert (child temp_dir EXT_PKG) (Symlink p))
                 (set_fs (insert temp_dir Dir) (set_candidate_names rest w))) in *.
    set (self1 := set_addl_paths _ self) in *.
    destruct (IH self1 w1 Hready') as (self' & w' & Hrun & Haddl & Hh & Hall & Hr & Hmono).
    { unfold w1. simpl. simpl in Hlen. lia. }
    exists self', w'. split.
    { cbn [for_each]. rewrite bind_run, Hround. exact Hrun. }
    assert (Hkeep : forall k, is_Some (fs w !! k) -> fs w1 !! k = fs w !! k).
    { intros k [v Hk]. unfold w1. simpl.
      rewrite !lookup_insert_ne; [reflexivity| |]; intros <-; congruence. }
    split.
    { rewrite Haddl. subst dirs self1. simpl.
      destruct (_addl_paths self); simpl; [|reflexivity].
      by rewrite <- app_assoc. }
    split; [by rewrite Hh|].
    split.
    { subst dirs. simpl. constructor; [|exact Hall].
      split; [|split].
      - rewrite Hmono; unfold w1; simpl; rewrite lookup_insert_eq; by eauto.
      - apply dirname_child; [|reflexivity].
        destruct Hready as (_ & _ & _ & _ & Hplain & _).
        rewrite Hcand in Hplain. apply Forall_cons in Hplain as [Hm _].
        by apply dir_path_child.
      - apply child_ne_self. }
    split; [exact Hr|].
    intros k Hk. rewrite Hmono by (rewrite Hkeep; done). by apply Hkeep.
Qed.

Lemma py_not_ext_pkg (m : string) : m ++ ".py" <> EXT_PKG.
Proof.
  intros H.
  assert (Hlen : String.length m = 16).
  { apply (f_equal String.length) in H. rewrite string_length_app in H.
    simpl in H. lia. }
  do 17 (destruct m as [|? m]; simpl in Hlen; try lia).
  cbv [String.append EXT_PKG] in H. congruence.
Qed.

(** The files of [generate_trampolines] replace no entry that is not a
    [.py] file of the home. *)
Lemma trampolines_lookup (l : list (string * string)) (w : World) (k : string) :
  Forall (fun mc => Py.has_sep (fst mc) = false) l ->
  (forall m, Py.has_sep m = false -> k <> child home (m ++ ".py")) ->
  fs (snd (for_each l (fun mc =>
             modify (set_fs (insert (Py.path_join home [fst mc ++ ".py"])
                                    (File (snd mc))))) w)) !! k
  = fs w !! k.
Proof.
  intros Hl Hk. revert w. induction Hl as [|[m content] l Hm _ IH]; intros w.
  - reflexivity.
  - cbn [for_each]. rewrite bind_run. unfold modify at 1. rewrite IH.
    cbn [fst snd] in *.
    rewrite path_join_plain by (done || by rewrite has_sep_app, Hm).
    cbn [fs set_fs]. rewrite lookup_insert_ne; [reflexivity|].
    intros Heq. by apply (Hk m).
Qed.

End ExtensionLayout.

Lemma save_for_fetch_keeps_paths (cls : Methods) (run_id : string) (self : Self)
    (w : World) :
  exists self',
    save_for_fetch cls run_id (self, w) = (Ok tt, (self', w))
    /\ _addl_paths self' = _addl_paths self.
Proof.
  unfold save_for_fetch. rewrite bind_run. unfold on_fst at 1, get. cbn [fst snd].
  destruct (call_is_enabled cls self None && call_is_fetch_at_exec cls self None).
  - eexists. split; reflexivity.
  - exists self. split; reflexivity.
Qed.

(** [runtime_init] up to the two links: what is left to run, and from
    where. *)
Lemma runtime_init_upto_links (host : Host) (cls : Methods) (run_id : string)
    (self : Self) (w : World) (taken : list string) (n : string)
    (rest : list string) :
  fs_wf (fs w) ->
  fs w !! "/tmp" = Some Dir ->
  candidate_names w = (taken ++ n :: rest)%list ->
  Forall (fun m => is_Some (fs w !! ("/tmp/tmp" ++ m))) taken ->
  fs w !! ("/tmp/tmp" ++ n) = None ->
  NoDup rest ->
  Forall (fun m => Py.has_sep m = false) (n :: rest) ->
  let home := "/tmp/tmp" ++ n in
  exists link info w2,
    runtime_init host cls run_id (self, w)
    = (link_extensions host home ;;;
       on_snd (generate_trampolines host home) ;;;
       save_for_fetch cls run_id)
        (set_addl_paths None (set_metaflow_home home self), w2)
    /\ candidate_names w2 = rest
    /\ round_ready (fs w) home link info w2
    /\ fs w2 !! child home EXT_PKG = None.
Proof.
  intros Hwf Htmp Hcand Htaken Hfresh Hnd Hplain home.
  apply Forall_cons in Hplain as [Hn Hplain].
  pose proof (tmp_home_dir n Hn) as Hdir.
  pose proof (tmp_home_parent n Hn) as Hparent.
  fold home in Hdir, Hparent, Hfresh.
  set (path_to_info := Py.path_join (get_metaflow_root host) ["INFO"]).
  set (link := Symlink (Py.path_join (get_metaflow_root host) ["metaflow"])).
  set (w1 := set_fs (insert home Dir) (set_candidate_names rest w)).
  assert (Hmk : OS.mkdtemp "/tmp" w = (Ok home, w1)).
  { apply (mkdtemp_fresh "/tmp" taken n rest w Hcand); [exact Htaken|exact Hfresh|].
    change (Py.path_join "/tmp" ["tmp" ++ n]) with home. by rewrite Hparent. }
  assert (Hchild0 : forall c, Py.has_sep c = false -> fs w !! child home c = None).
  { intros c Hc. apply (fresh_child (fs w) home); [exact Hwf|exact Hfresh| |].
    - by apply dirname_child.
    - apply child_ne_self. }
  assert (Htree1 : home_tree (fs w) home (fs w1)).
  { split; [|apply lookup_insert_eq]. intros p Hp. simpl.
    rewrite lookup_insert_ne; [reflexivity|]. intros <-.
    rewrite under_self in Hp. discriminate. }
  assert (Hwf1 : fs_wf (fs w1)).
  { simpl. apply fs_wf_insert; [exact Hwf|exact Hfresh|]. by rewrite Hparent. }
  set (self2 := set_addl_paths None (set_metaflow_home home self)).
  set (f1 := <[child home "metaflow" := link]> (fs w1)).
  set (info := if OS.isfile (getcwd host) f1 path_to_info then Symlink path_to_info
               else File (get_environment_info_json (_env self2))).
  set (w2 := set_fs (fun _ => <[child home "INFO" := info]> f1) w1).
  assert (Hm1 : fs w1 !! child home "metaflow" = None).
  { simpl. rewrite lookup_insert_ne by (symmetry; apply child_ne_self).
    by apply Hchild0. }
  assert (Hi1 : fs w1 !! child home "INFO" = None).
  { simpl. rewrite lookup_insert_ne by (symmetry; apply child_ne_self).
    by apply Hchild0. }
  assert (Hlink : link_metaflow host home (self2, w1) = (Ok tt, (self2, w2))).
  { apply (link_metaflow_run host home Hdir self2 w1); [apply Htree1|exact Hm1|exact Hi1]. }
  assert (Hif1 : f1 !! child home "INFO" = None).
  { unfold f1. rewrite lookup_insert_ne; [exact Hi1|].
    intros Heq%child_inj. discriminate. }
  assert (Hchild2 : forall c, Py.has_sep c = false -> c <> "metaflow" -> c <> "INFO" ->
                              fs w2 !! child home c = None).
  { intros c Hc Hc1 Hc2. simpl. unfold f1. simpl.
    rewrite !lookup_insert_ne; [by apply Hchild0| | |].
    - symmetry. apply child_ne_self.
    - intros Heq%child_inj. congruence.
    - intros Heq%child_inj. congruence. }
  exists link, info, w2. split; [|split; [reflexivity|split]].
  - unfold runtime_init. rewrite bind_run. unfold on_snd at 1. cbn [fst snd].
    rewrite Hmk. rewrite bind_run. unfold on_fst at 1, modify at 1. cbn [fst snd].
    rewrite bind_run. unfold on_fst at 1, modify at 1. cbn [fst snd].
    fold self2. by rewrite bind_run, Hlink.
  - split; [|split; [|split]].
    + simpl. apply fs_wf_insert.
      * apply fs_wf_insert; [exact Hwf1|exact Hm1|].
        rewrite dirname_child by done. apply Htree1.
      * exact Hif1.
      * rewrite dirname_child by done. unfold f1.
        rewrite lookup_insert_ne by apply child_ne_self. apply Htree1.
    + simpl. apply home_tree_insert; [|by apply under_child|apply child_ne_self].
      apply home_tree_insert; [exact Htree1|by apply under_child|apply child_ne_self].
    + split; simpl.
      * rewrite lookup_insert_ne by (intros Heq%child_inj; discriminate).
        apply lookup_insert_eq.
      * apply lookup_insert_eq.
    + split; [exact Hnd|]. split; [exact Hplain|].
      apply Forall_forall. intros m Hm. rewrite Forall_forall in Hplain.
      apply Hchild2; [exact (Hplain m Hm)|discriminate|discriminate].
  - apply Hchild2; [reflexivity|discriminate|discriminate].
Qed.

(** X15. Where the extension package ends up. Under the conditions of the
    round trip, [runtime_init] returns and: when the package cannot be
    imported, there are no additional paths; when it has one path [p], the
    home holds a link [metaflow_extensions] to [p] and there are no
    additional paths; otherwise [self._addl_paths] lists one directory per
    path, in the order of the paths, made in the home under the next names
    of [tempfile], and each holds a link [metaflow_extensions] to its
    path. *)
Theorem extension_package_layout (host : Host) (cls : Methods) (run_id : string)
    (self : Self) (w : World) (taken : list string) (n : string)
    (rest : list string) :
  fs_wf (fs w) ->
  fs w !! "/tmp" = Some Dir ->
  candidate_names w = (taken ++ n :: rest)%list ->
  Forall (fun m => is_Some (fs w !! ("/tmp/tmp" ++ m))) taken ->
  fs w !! ("/tmp/tmp" ++ n) = None ->
  NoDup rest ->
  Forall (fun m => Py.has_sep m = false) (n :: rest) ->
  temp_dirs_needed host <= length rest ->
  Forall (fun mc => Py.has_sep (fst mc) = false) (trampolines host) ->
  let home := "/tmp/tmp" ++ n in
  exists self' w',
    runtime_init host cls run_id (self, w) = (Ok tt, (self', w'))
    /\ match ext_pkg_path host with
       | None => _addl_paths self' = None
       | Some m_path =>
           match list_of_set host m_path with
           | [p] =>
               _addl_paths self' = None
               /\ fs w' !! (home ++ "/metaflow_extensions") = Some (Symlink p)
           | custom_paths =>
               let dirs :=
                 (fun m => home ++ "/tmp" ++ m)
                   <$> take (length custom_paths) rest in
               _addl_paths self' = Some dirs
               /\ length dirs = length custom_paths
               /\ Forall2 (fun p d => fs w' !! (d ++ "/metaflow_extensions")
                                      = Some (Symlink p))
                          custom_paths dirs
           end
       end.
Proof.
  intros Hwf Htmp Hcand Htaken Hfresh Hnd Hplain Hneeded Htramp home.
  destruct (runtime_init_upto_links host cls run_id self w taken n rest)
    as (link & info & w2 & Hrun & Hnames & Hready & Hext); try assumption.
  fold home in Hrun, Hready, Hext.
  apply Forall_cons in Hplain as [Hn Hplain].
  pose proof (tmp_home_dir n Hn) as Hdir. fold home in Hdir.
  set (self2 := set_addl_paths None (set_metaflow_home home self)) in *.
  rewrite Hrun. clear Hrun.
  (* the loop, whatever the paths *)
  assert (Hloop : forall l : list string,
    length l <= length rest ->
    let dirs := (fun m => home ++ "/tmp" ++ m) <$> take (length l) rest in
    exists self' w',
      ((on_fst (modify (set_addl_paths (Some []))) ;;;
        for_each l (fun p =>
          temp_dir <- on_snd (OS.mkdtemp home) ;;
          on_snd (OS.symlink p (Py.path_join temp_dir [EXT_PKG])) ;;;
          on_fst (modify (fun self =>
            set_addl_paths
              (option_map (fun l => (l ++ [temp_dir])%list) (_addl_paths self))
              self)))) ;;;
       on_snd (generate_trampolines host home) ;;;
       save_for_fetch cls run_id) (self2, w2)
      = (Ok tt, (self', w'))
      /\ _addl_paths self' = Some dirs
      /\ length dirs = length l
      /\ Forall2 (fun p d => fs w' !! (d ++ "/metaflow_extensions")
                             = Some (Symlink p)) l dirs).
  { intros l Hl dirs.
    destruct (extension_dirs_layout (fs w) home Hdir link info l
                (set_addl_paths (Some []) self2) w2 Hready)
      as (self3 & w3 & Hfor & Haddl & _ & Hall & Hready3 & _).
    { by rewrite Hnames. }
    rewrite Hnames in Haddl, Hall. simpl in Haddl.
    change ((fun m => child home ("tmp" ++ m)) <$> take (length l) rest)
      with dirs in Haddl, Hall.
    destruct (save_for_fetch_keeps_paths cls run_id self3
                (snd (generate_trampolines host home w3)))
      as (self' & Hsave & Hpaths).
    exists self', (snd (generate_trampolines host home w3)).
    split.
    { rewrite bind_run, bind_run. unfold on_fst at 1, modify at 1. cbn [fst snd].
      rewrite Hfor. rewrite bind_run. unfold on_snd at 1. cbn [fst snd].
      destruct (trampolines_run (fs w) home Hdir link info (trampolines host) w3)
        as (w4 & Htr & _); [exact Htramp|apply Hready3|apply Hready3|].
      unfold generate_trampolines in *. rewrite Htr in *. exact Hsave. }
    split; [by rewrite Hpaths, Haddl|].
    split; [unfold dirs; rewrite length_fmap, length_take; lia|].
    eapply Forall2_impl; [exact Hall|].
    intros p d (Hlook & Hparent & Hne). simpl in Hlook.
    change (d ++ "/metaflow_extensions") with (child d EXT_PKG).
    unfold generate_trampolines.
    rewrite (trampolines_lookup home Hdir (trampolines host) w3
               (child d EXT_PKG) Htramp); [exact Hlook|].
    intros m Hm Heq. apply (f_equal Py.dirname) in Heq.
    rewrite Hparent in Heq.
    rewrite dirname_child in Heq by (done || by rewrite has_sep_app, Hm).
    done. }
  unfold link_extensions. unfold temp_dirs_needed in Hneeded.
  destruct (ext_pkg_path host) as [m_path|].
  - destruct (list_of_set host m_path) as [|p [|q l]] eqn:Hl.
    + apply (Hloop []). simpl. lia.
    + set (w3 := set_fs (insert (child home EXT_PKG) (Symlink p)) w2).
      destruct (save_for_fetch_keeps_paths cls run_id self2
                  (snd (generate_trampolines host home w3)))
        as (self' & Hsave & Hpaths).
      exists self', (snd (generate_trampolines host home w3)).
      destruct Hready as (Hwf2 & Htree2 & Hlinked2 & _).
      split.
      { rewrite bind_run. unfold on_snd at 1. cbn [fst snd].
        rewrite path_join_plain by done. unfold OS.symlink.
        rewrite create_fresh;
          [|exact Hext|rewrite dirname_child by done; apply Htree2].
        fold w3. rewrite bind_run. unfold on_snd at 1. cbn [fst snd].
        destruct (trampolines_run (fs w) home Hdir link info (trampolines host) w3)
          as (w4 & Htr & _); [exact Htramp| | |].
        - unfold w3. simpl.
          apply home_tree_insert; [exact Htree2|by apply under_child|apply child_ne_self].
        - destruct Hlinked2 as [Hl1 Hl2]. unfold w3. simpl.
          apply linked_insert; [by split| |]; intros Heq; congruence.
        - unfold generate_trampolines in *. rewrite Htr in *. exact Hsave. }
      split; [by rewrite Hpaths|].
      change (home ++ "/metaflow_extensions") with (child home EXT_PKG).
      unfold generate_trampolines.
      rewrite (trampolines_lookup home Hdir (trampolines host) w3
                 (child home EXT_PKG) Htramp).
      * unfold w3. simpl. apply lookup_insert_eq.
      * intros m Hm Heq%child_inj. symmetry in Heq. by apply py_not_ext_pkg in Heq.
    + apply (Hloop (p :: q :: l)). exact Hneeded.
  - destruct (save_for_fetch_keeps_paths cls run_id self2
                (snd (generate_trampolines host home w2)))
      as (self' & Hsave & Hpaths).
    exists self', (snd (generate_trampolines host home w2)).
    destruct Hready as (Hwf2 & Htree2 & Hlinked2 & _).
    split; [|by rewrite Hpaths].
    rewrite bind_run. unfold ret at 1.
    rewrite bind_run. unfold on_snd at 1. cbn [fst snd].
    destruct (trampolines_run (fs w) home Hdir link info (trampolines host) w2)
      as (w4 & Htr & _); try assumption.
    unfold generate_trampolines in *. rewrite Htr in *. exact Hsave.
Qed.

Lemma extension_package_layout_witness :
  exists self' w',
    runtime_init Demo.the_host (CondaEnvInternalDecorator Demo.the_host) "12"
                 (Demo.self_at "train" None false, Demo.the_world)
    = (Ok tt, (self', w'))
    /\ _addl_paths self'
       = Some ["/tmp/tmpb0b0b0b0/tmpc1c1c1c1"; "/tmp/tmpb0b0b0b0/tmpd2d2d2d2"]
    /\ length ["/tmp/tmpb0b0b0b0/tmpc1c1c1c1"; "/tmp/tmpb0b0b0b0/tmpd2d2d2d2"] = 2
    /\ Forall2 (fun p d => fs w' !! (d ++ "/metaflow_extensions")
                           = Some (Symlink p))
               ["/src/ext_a"; "/src/ext_b"]
               ["/tmp/tmpb0b0b0b0/tmpc1c1c1c1"; "/tmp/tmpb0b0b0b0/tmpd2d2d2d2"].
Proof.
  apply (extension_package_layout Demo.the_host
           (CondaEnvInternalDecorator Demo.the_host) "12"
           (Demo.self_at "train" None false) Demo.the_world
           ["aaaaaaaa"] "b0b0b0b0" ["c1c1c1c1"; "d2d2d2d2"]).
  - exact demo_fs_wf.
  - reflexivity.
  - reflexivity.
  - constructor; [exists Dir; by vm_compute | constructor].
  - reflexivity.
  - compute_done.
  - repeat constructor.
  - vm_compute. lia.
  - repeat constructor.
Defined.
